(** * i.MX8MM Thermal Monitor Unit driver: model and checked properties

    A shallow embedding of [drivers/thermal/imx8mm_thermal.c].

    - C [u32] and [int] values are integers in [Z]; every arithmetic
      operation of the source has its 32-bit wrap-around written out
      ([u32], [s32]).  The kernel is built with [-fno-strict-overflow], so
      [int] arithmetic wraps as well.
    - Register accesses, delays, log messages and the calls that release
      resources are effects on a [machine]: they are recorded in its
      [trace], and what a register read returns may depend on everything
      that happened before it.
    - The callbacks that only touch the [imx8mm_tmu] structure
      ([tmu_get_trend], [tmu_set_trip_temp]) are pure functions; an output
      parameter is modelled by passing the value the caller's variable
      holds before the call and returning the one it holds after. *)

From Stdlib Require Import ZArith List String Bool Lia.
Import ListNotations.
Local Open Scope Z_scope.

(* ===================================================================== *)
(** ** Machine integers *)

Module Int.

Definition modulus : Z := 2 ^ 32.
Definition half_modulus : Z := 2 ^ 31.
Definition INT_MIN : Z := - half_modulus.
Definition INT_MAX : Z := half_modulus - 1.

(** Reduction of an integer to the C type [u32]. *)
Definition u32 (z : Z) : Z := z mod modulus.

(** Reduction of an integer to the C type [int] (two's complement). *)
Definition s32 (z : Z) : Z := (z + half_modulus) mod modulus - half_modulus.

(** [a - b] and [a + b] on [u32] operands. *)
Definition usub (a b : Z) : Z := u32 (a - b).
Definition uadd (a b : Z) : Z := u32 (a + b).
Definition umul (a b : Z) : Z := u32 (a * b).

(** [a - b] on [int] operands. *)
Definition ssub (a b : Z) : Z := s32 (a - b).

(** [~x] on an [int], then the usual conversion to [u32] that a
    comparison with a [u32] operand performs. *)
Definition int_not_as_u32 (x : Z) : Z := u32 (Z.lnot x).

Definition is_int (z : Z) : Prop := INT_MIN <= z <= INT_MAX.

End Int.

(* ===================================================================== *)
(** ** Constants of the driver *)

Definition TER : Z := 0x0.
Definition TSR : Z := 0x4.
Definition TIER : Z := 0x8.
Definition TIDR : Z := 0xc.
Definition TMHTITR : Z := 0x10.
Definition TMHTATR : Z := 0x14.
Definition TMHTCATR : Z := 0x18.
Definition TSCR : Z := 0x1c.
Definition TRITSR : Z := 0x20.
Definition TRATSR : Z := 0x24.

Definition BIT (n : Z) : Z := Z.shiftl 1 n.
Definition TER_EN : Z := BIT 31.
Definition TRITSR_VALID : Z := BIT 31.
Definition TEMP_VAL_MASK : Z := 0xff.

Definition TEMP_LOW_LIMIT : Z := 10.
Definition OCOTP_TMU_CALIB : Z := 0x04f0.

Definition IMX_TEMP_PASSIVE_COOL_DELTA : Z := 10000.

(** [enum imx_thermal_trip] *)
Definition IMX_TRIP_PASSIVE : Z := 0.
Definition IMX_TRIP_CRITICAL : Z := 1.
Definition IMX_TRIP_NUM : Z := 2.

(** Error numbers of the kernel headers ([errno-base.h], [errno.h]); the
    driver only names them. *)
Definition EAGAIN : Z := 11.
Definition ENOMEM : Z := 12.
Definition ENODEV : Z := 19.
Definition EPROBE_DEFER : Z := 517.

(** [enum thermal_trend] of [linux/thermal.h], in declaration order. *)
Inductive thermal_trend : Type :=
| THERMAL_TREND_STABLE
| THERMAL_TREND_RAISING
| THERMAL_TREND_DROPPING
| THERMAL_TREND_RAISE_FULL
| THERMAL_TREND_DROP_FULL.

(* ===================================================================== *)
(** ** Effects: the machine and its trace *)

Inductive log_level : Type := KERN_ERR | KERN_WARNING | KERN_INFO.

Inductive event : Type :=
| EvReadl (addr : Z)
| EvWritel (val addr : Z)
| EvMsleep (msecs : Z)
| EvLog (lvl : log_level) (fmt : string) (args : list Z)
| EvIounmap (addr : Z)
| EvOfNodePut
| EvUnbindCooling (trip : Z)
| EvCoolingUnregister.

(** The machine the driver runs on.  [trace] lists the effects performed so
    far, the most recent first.  [bus history addr] is the word the device
    at [addr] delivers when it is read after [history]: registers are
    volatile, so two reads of one address need not agree. *)
Record machine : Type := {
  bus : list event -> Z -> Z;
  trace : list event
}.

Definition record (e : event) (m : machine) : machine :=
  {| bus := bus m; trace := e :: trace m |}.

(** Computations with effects on the machine. *)
Definition io (A : Type) : Type := machine -> A * machine.

Definition ret {A : Type} (a : A) : io A := fun m => (a, m).

Definition bind {A B : Type} (c : io A) (k : A -> io B) : io B :=
  fun m => let (a, m') := c m in k a m'.

Declare Scope io_scope.
Delimit Scope io_scope with io.
Notation "x <- c ;; k" := (bind c (fun x => k))
  (at level 61, c at next level, right associativity) : io_scope.
Notation "c ;;; k" := (bind c (fun _ => k))
  (at level 61, right associativity) : io_scope.
Local Open Scope io_scope.

Definition emit (e : event) : io unit := fun m => (tt, record e m).

Definition readl_relaxed (addr : Z) : io Z :=
  fun m => (Int.u32 (bus m (trace m) addr), record (EvReadl addr) m).

Definition writel_relaxed (val addr : Z) : io unit := emit (EvWritel val addr).
Definition msleep (msecs : Z) : io unit := emit (EvMsleep msecs).
Definition dev_err (fmt : string) (args : list Z) : io unit :=
  emit (EvLog KERN_ERR fmt args).
Definition dev_warn (fmt : string) (args : list Z) : io unit :=
  emit (EvLog KERN_WARNING fmt args).
Definition dev_info (fmt : string) (args : list Z) : io unit :=
  emit (EvLog KERN_INFO fmt args).
Definition iounmap (addr : Z) : io unit := emit (EvIounmap addr).

(* ===================================================================== *)
(** ** Data of the driver *)

(** The fields of [struct thermal_zone_device] the driver touches:
    [temperature] and [tzp->no_hwmon]. *)
Record thermal_zone_device : Type := {
  temperature : Z;
  no_hwmon : bool
}.

(** [struct imx8mm_tmu].  [tzd] is [None] for a null pointer; [cdev], [clk]
    and [tmu_base] are addresses. *)
Record imx8mm_tmu : Type := {
  tzd : option thermal_zone_device;
  cdev : Z;
  clk : Z;
  tmu_base : Z;
  enabled : bool;
  do_calib : bool;
  temp_passive : Z;
  temp_critical : Z;
  fuse_calib_val : Z
}.

(** Field assignments. *)
Definition set_temp_passive (v : Z) (t : imx8mm_tmu) : imx8mm_tmu :=
  {| tzd := tzd t; cdev := cdev t; clk := clk t; tmu_base := tmu_base t;
     enabled := enabled t; do_calib := do_calib t;
     temp_passive := v; temp_critical := temp_critical t;
     fuse_calib_val := fuse_calib_val t |}.

Definition set_temp_critical (v : Z) (t : imx8mm_tmu) : imx8mm_tmu :=
  {| tzd := tzd t; cdev := cdev t; clk := clk t; tmu_base := tmu_base t;
     enabled := enabled t; do_calib := do_calib t;
     temp_passive := temp_passive t; temp_critical := v;
     fuse_calib_val := fuse_calib_val t |}.

Definition set_do_calib (v : bool) (t : imx8mm_tmu) : imx8mm_tmu :=
  {| tzd := tzd t; cdev := cdev t; clk := clk t; tmu_base := tmu_base t;
     enabled := enabled t; do_calib := v;
     temp_passive := temp_passive t; temp_critical := temp_critical t;
     fuse_calib_val := fuse_calib_val t |}.

Definition set_fuse_calib_val (v : Z) (t : imx8mm_tmu) : imx8mm_tmu :=
  {| tzd := tzd t; cdev := cdev t; clk := clk t; tmu_base := tmu_base t;
     enabled := enabled t; do_calib := do_calib t;
     temp_passive := temp_passive t; temp_critical := temp_critical t;
     fuse_calib_val := v |}.

(* ===================================================================== *)
(** ** Reading the temperature *)

(** [imx8mm_get_calibrate_temp(tmu, &val)]: the argument is the value of
    [*val] before the call, the result the value after it. *)
Definition imx8mm_get_calibrate_temp (tmu : imx8mm_tmu) (val : Z) : io Z :=
  if do_calib tmu then
    r <- readl_relaxed (tmu_base tmu + TSCR) ;;
    let raw_val := Z.land r TEMP_VAL_MASK in
    ret (Int.uadd (Int.usub raw_val (fuse_calib_val tmu)) 25)
  else
    ret val.

(** [tmu_get_temp(data, &temp)]: returns the status and the value of
    [*temp] after the call ([temp] is its value before). *)
Definition tmu_get_temp (tmu : imx8mm_tmu) (temp : Z) : io (Z * Z) :=
  r <- readl_relaxed (tmu_base tmu + TRITSR) ;;
  let val := Z.land r TEMP_VAL_MASK in
  val <- imx8mm_get_calibrate_temp tmu val ;;
  if val <? TEMP_LOW_LIMIT then
    msleep 10 ;;;
    r <- readl_relaxed (tmu_base tmu + TRITSR) ;;
    let val := Z.land r TEMP_VAL_MASK in
    val <- imx8mm_get_calibrate_temp tmu val ;;
    if val <? TEMP_LOW_LIMIT then
      ret (- EAGAIN, temp)
    else
      ret (0, Int.s32 (Int.umul val 1000))
  else
    ret (0, Int.s32 (Int.umul val 1000)).

(* ===================================================================== *)
(** ** Trip points and trend *)

(** [tmu_get_trend(p, trip, &trend)]: returns the status and the value of
    [*trend] after the call ([trend] is its value before). *)
Definition tmu_get_trend (tmu : imx8mm_tmu) (trip : Z) (trend : thermal_trend)
  : Z * thermal_trend :=
  match tzd tmu with
  | None => (0, trend)
  | Some tz =>
      let trip_temp :=
        if trip =? IMX_TRIP_PASSIVE then temp_passive tmu
        else temp_critical tmu in
      if temperature tz >=? Int.ssub trip_temp IMX_TEMP_PASSIVE_COOL_DELTA
      then (0, THERMAL_TREND_RAISE_FULL)
      else (0, THERMAL_TREND_DROP_FULL)
  end.

(** [tmu_set_trip_temp(p, trip, temp)]: returns the status and the
    structure after the call. *)
Definition tmu_set_trip_temp (tmu : imx8mm_tmu) (trip temp : Z)
  : Z * imx8mm_tmu :=
  let tmu := if trip =? IMX_TRIP_CRITICAL then set_temp_critical temp tmu
             else tmu in
  let tmu := if trip =? IMX_TRIP_PASSIVE then set_temp_passive temp tmu
             else tmu in
  (0, tmu).

(* ===================================================================== *)
(** ** Initialization *)

(** A pointer that may be an [ERR_PTR]: [IS_ERR] holds of [ErrPtr e] and
    [PTR_ERR] then returns [e]. *)
Inductive err_ptr (A : Type) : Type :=
| Ptr (a : A)
| ErrPtr (err : Z).
Arguments Ptr {A} a.
Arguments ErrPtr {A} err.

(** What the platform answers to the calls of the probe function, each of
    which is made at most once: device tree, allocator, clock framework,
    thermal core.  A mapping address of [0] is a null pointer. *)
Record platform_device : Type := {
  of_node : bool;
  devm_kzalloc : bool;
  of_iomap_tmu : Z;
  devm_clk_get : err_ptr Z;
  devm_thermal_zone_of_sensor_register : err_ptr thermal_zone_device;
  devfreq_cooling_register : err_ptr Z;
  thermal_zone_bind_cooling_device : Z;
  of_thermal_get_trip_points : Z * Z;
  clk_prepare_enable : Z;
  thermal_add_hwmon_sysfs : Z;
  of_find_compatible_node : bool;
  of_iomap_ocotp : Z
}.

(** The structure as [devm_kzalloc] delivers it, with the register window
    mapped at [base]. *)
Definition tmu_zeroed (base : Z) : imx8mm_tmu :=
  {| tzd := None; cdev := 0; clk := 0; tmu_base := base;
     enabled := false; do_calib := false;
     temp_passive := 0; temp_critical := 0; fuse_calib_val := 0 |}.

Definition set_clk (v : Z) (t : imx8mm_tmu) : imx8mm_tmu :=
  {| tzd := tzd t; cdev := cdev t; clk := v; tmu_base := tmu_base t;
     enabled := enabled t; do_calib := do_calib t;
     temp_passive := temp_passive t; temp_critical := temp_critical t;
     fuse_calib_val := fuse_calib_val t |}.

Definition set_cdev (v : Z) (t : imx8mm_tmu) : imx8mm_tmu :=
  {| tzd := tzd t; cdev := v; clk := clk t; tmu_base := tmu_base t;
     enabled := enabled t; do_calib := do_calib t;
     temp_passive := temp_passive t; temp_critical := temp_critical t;
     fuse_calib_val := fuse_calib_val t |}.

Definition set_tzd (v : option thermal_zone_device) (t : imx8mm_tmu)
  : imx8mm_tmu :=
  {| tzd := v; cdev := cdev t; clk := clk t; tmu_base := tmu_base t;
     enabled := enabled t; do_calib := do_calib t;
     temp_passive := temp_passive t; temp_critical := temp_critical t;
     fuse_calib_val := fuse_calib_val t |}.

Definition set_no_hwmon (v : bool) (tz : thermal_zone_device)
  : thermal_zone_device :=
  {| temperature := temperature tz; no_hwmon := v |}.

(** The driver data of the device when the probe function returns.
    [platform_set_drvdata(pdev, tmu)] stores the pointer to the structure
    right after the allocation, and nothing in the function clears it.
    - [DrvUnset]: the function returned before that call.
    - [DrvStale]: the pointer is set and the function failed afterwards;
      the structure it designates is not described (its pointer fields
      may hold error pointers).
    - [DrvInstance tmu]: the pointer is set and the function returned from
      label [ret]; [tmu] is the content of the structure. *)
Inductive drvdata : Type :=
| DrvUnset
| DrvStale
| DrvInstance (tmu : imx8mm_tmu).

(** The instance in service, if any. *)
Definition instance_of (d : drvdata) : option imx8mm_tmu :=
  match d with
  | DrvInstance tmu => Some tmu
  | DrvUnset | DrvStale => None
  end.

(** The result of the probe function: its status and the driver data it
    leaves. *)
Definition probe_result : Type := Z * drvdata.

(** Label [err].  The driver data stays set. *)
Definition probe_err (tmu : imx8mm_tmu) (ret_ : Z) : io probe_result :=
  iounmap (tmu_base tmu) ;;;
  ret (ret_, DrvStale).

(** Label [ret]. *)
Definition probe_ret (tmu : imx8mm_tmu) (val : Z) : io probe_result :=
  (if do_calib tmu then
     dev_info "using software calibrated temperature: OTP_CAL = %d" [val]
   else
     dev_warn "using (potentially bugy) imx8mm hardware calibrated value" []) ;;;
  ret (0, DrvInstance tmu).

(** Label [no_ocotp]. *)
Definition probe_no_ocotp (tmu : imx8mm_tmu) (val : Z) : io probe_result :=
  emit EvOfNodePut ;;;
  probe_ret tmu val.

(** Label [no_ocotp_unmap]. *)
Definition probe_no_ocotp_unmap (tmu : imx8mm_tmu) (val ocotp_base : Z)
  : io probe_result :=
  iounmap ocotp_base ;;;
  probe_no_ocotp tmu val.

(** The calibration part of the probe function, from [tmu->do_calib = false]
    on (the function is split here only to keep the definitions short). *)
Definition probe_calibration (pdev : platform_device) (tmu : imx8mm_tmu)
  : io probe_result :=
  let tmu := set_do_calib false tmu in
  let val := 0 in
  if negb (of_find_compatible_node pdev) then
    dev_warn "failed to find ocotp node" [] ;;;
    probe_ret tmu val
  else
    let ocotp_base := of_iomap_ocotp pdev in
    if ocotp_base =? 0 then
      dev_warn "failed to map ocotp" [] ;;;
      probe_no_ocotp tmu val
    else
      r <- readl_relaxed (ocotp_base + OCOTP_TMU_CALIB) ;;
      let val := Z.land r TEMP_VAL_MASK in
      if (val =? 0) || (val =? Int.int_not_as_u32 0) then
        dev_err "invalid sensor calibration data" [] ;;;
        probe_no_ocotp_unmap tmu val ocotp_base
      else
        let tmu := set_fuse_calib_val val tmu in
        let tmu := set_do_calib true tmu in
        probe_no_ocotp_unmap tmu val ocotp_base.

(** [imx8mm_tmu_probe(pdev)]. *)
Definition imx8mm_tmu_probe (pdev : platform_device) : io probe_result :=
  if negb (of_node pdev) then
    dev_err "device node NOT found" [] ;;;
    ret (- ENODEV, DrvUnset)
  else if negb (devm_kzalloc pdev) then
    ret (- ENOMEM, DrvUnset)
  else
    (* platform_set_drvdata(pdev, tmu): the driver data is set from here
       on; then tmu->tmu_base = of_iomap(np, 0) *)
    let tmu := tmu_zeroed (of_iomap_tmu pdev) in
    if tmu_base tmu =? 0 then
      dev_err "Failed to map the memory" [] ;;;
      ret (- ENODEV, DrvStale)
    else
    match devm_clk_get pdev with
    | ErrPtr e =>
        dev_err "Failed to get the tmu clk" [] ;;;
        probe_err tmu e
    | Ptr c =>
    let tmu := set_clk c tmu in
    match devm_thermal_zone_of_sensor_register pdev with
    | ErrPtr e =>
        dev_err "Failed to register thermal zone sensor %d" [e] ;;;
        probe_err tmu e
    | Ptr tz =>
    let tmu := set_tzd (Some tz) tmu in
    match devfreq_cooling_register pdev with
    | ErrPtr e =>
        (if negb (e =? - EPROBE_DEFER) then
           dev_err "failed to register devfreq cooling device %d" [e]
         else ret tt) ;;;
        probe_err tmu e
    | Ptr cd =>
    let tmu := set_cdev cd tmu in
    let r := thermal_zone_bind_cooling_device pdev in
    if negb (r =? 0) then
      dev_err "binding zone %s with cdev %s failed:%d" [r] ;;;
      emit EvCoolingUnregister ;;;
      probe_err tmu r
    else
    let trips := of_thermal_get_trip_points pdev in
    let tmu := set_temp_passive (fst trips) tmu in
    let tmu := set_temp_critical (snd trips) tmu in
    let r := clk_prepare_enable pdev in
    if negb (r =? 0) then
      dev_warn "tmu clock enable failed:%d" [r] ;;;
      emit (EvUnbindCooling IMX_TRIP_PASSIVE) ;;;
      emit EvCoolingUnregister ;;;
      probe_err tmu r
    else
    val <- readl_relaxed (tmu_base tmu + TER) ;;
    let val := Z.lor val TER_EN in
    writel_relaxed val (tmu_base tmu + TER) ;;;
    let tmu := set_tzd (Some (set_no_hwmon false tz)) tmu in
    let r := thermal_add_hwmon_sysfs pdev in
    if negb (r =? 0) then
      probe_err tmu r
    else
      probe_calibration pdev tmu
    end end end.

(* ===================================================================== *)
(** ** Concrete machines and instances, for evaluation *)

(** A machine on which every register reads [v], with an empty trace. *)
Definition machine_const (v : Z) : machine :=
  {| bus := fun _ _ => v; trace := [] |}.

(** A machine on which the register at [addr] reads [v] and all others
    read [0]. *)
Definition machine_reg (addr v : Z) : machine :=
  {| bus := fun _ a => if a =? addr then v else 0; trace := [] |}.

(** A machine whose registers all read [v1] until the first delay and
    [v2] after it. *)
Definition machine_warmup (v1 v2 : Z) : machine :=
  {| bus := fun h _ =>
       if existsb (fun e => match e with EvMsleep _ => true | _ => false end) h
       then v2 else v1;
     trace := [] |}.

(** An instance mapped at [0x1000], with the zone registered at
    [zone_temp] and trip points 85000 and 95000. *)
Definition tmu_sample (calib : bool) (fuse zone_temp : Z) : imx8mm_tmu :=
  {| tzd := Some {| temperature := zone_temp; no_hwmon := false |};
     cdev := 0x2000; clk := 0x3000; tmu_base := 0x1000;
     enabled := false; do_calib := calib;
     temp_passive := 85000; temp_critical := 95000;
     fuse_calib_val := fuse |}.

(** A platform on which every step of the probe function succeeds, with
    the fuse block found or not ([ocotp_found]) and mapped at [ocotp_base]. *)
Definition platform_ok (ocotp_found : bool) (ocotp_base : Z)
  : platform_device :=
  {| of_node := true;
     devm_kzalloc := true;
     of_iomap_tmu := 0x1000;
     devm_clk_get := Ptr 0x3000;
     devm_thermal_zone_of_sensor_register :=
       Ptr {| temperature := 0; no_hwmon := true |};
     devfreq_cooling_register := Ptr 0x2000;
     thermal_zone_bind_cooling_device := 0;
     of_thermal_get_trip_points := (85000, 95000);
     clk_prepare_enable := 0;
     thermal_add_hwmon_sysfs := 0;
     of_find_compatible_node := ocotp_found;
     of_iomap_ocotp := ocotp_base |}.

(* ===================================================================== *)
(** ** Vocabulary of the statements *)

(** One attempt of [tmu_get_temp]: the immediate-temperature register is
    read and masked, then the calibration step is applied. *)
Definition attempt (tmu : imx8mm_tmu) : io Z :=
  r <- readl_relaxed (tmu_base tmu + TRITSR) ;;
  imx8mm_get_calibrate_temp tmu (Z.land r TEMP_VAL_MASK).

(** The low eight bits of the word that a read of [tmu_base + off] delivers
    on machine [m]. *)
Definition reg8 (tmu : imx8mm_tmu) (off : Z) (m : machine) : Z :=
  Z.land (Int.u32 (bus m (trace m) (tmu_base tmu + off))) TEMP_VAL_MASK.

(** Number of delays in a trace, and number of reads of one address. *)
Definition is_msleep (e : event) : bool :=
  match e with EvMsleep _ => true | _ => false end.

Definition is_readl (addr : Z) (e : event) : bool :=
  match e with EvReadl a => a =? addr | _ => false end.

Definition is_log (lvl : log_level) (e : event) : bool :=
  match e, lvl with
  | EvLog KERN_ERR _ _, KERN_ERR => true
  | EvLog KERN_WARNING _ _, KERN_WARNING => true
  | EvLog KERN_INFO _ _, KERN_INFO => true
  | _, _ => false
  end.

Definition count (p : event -> bool) (tr : list event) : nat :=
  List.length (List.filter p tr).

(** Status, output value and final machine of a run. *)
Definition status {A : Type} (r : (Z * A) * machine) : Z := fst (fst r).
Definition output {A : Type} (r : (Z * A) * machine) : A := snd (fst r).
Definition final {A : Type} (r : A * machine) : machine := snd r.

(** The calibration outcome of the specification, read off the structure. *)
Inductive calibration : Type :=
| Uncalibrated
| Calibrated (offset : Z).

Definition calibration_of (tmu : imx8mm_tmu) : calibration :=
  if do_calib tmu then Calibrated (fuse_calib_val tmu) else Uncalibrated.

(** The steps of the probe function that precede the calibration part all
    succeed. *)
Definition is_ptr {A : Type} (p : err_ptr A) : bool :=
  match p with Ptr _ => true | ErrPtr _ => false end.

Definition preamble_ok (pdev : platform_device) : bool :=
  of_node pdev && devm_kzalloc pdev && negb (of_iomap_tmu pdev =? 0)
  && is_ptr (devm_clk_get pdev)
  && is_ptr (devm_thermal_zone_of_sensor_register pdev)
  && is_ptr (devfreq_cooling_register pdev)
  && (thermal_zone_bind_cooling_device pdev =? 0)
  && (clk_prepare_enable pdev =? 0)
  && (thermal_add_hwmon_sysfs pdev =? 0).

(** The structure and the machine when the calibration part starts. *)
Definition tmu_before_calibration (pdev : platform_device) : imx8mm_tmu :=
  match devm_clk_get pdev,
        devm_thermal_zone_of_sensor_register pdev,
        devfreq_cooling_register pdev with
  | Ptr c, Ptr tz, Ptr cd =>
      {| tzd := Some (set_no_hwmon false tz); cdev := cd; clk := c;
         tmu_base := of_iomap_tmu pdev;
         enabled := false; do_calib := false;
         temp_passive := fst (of_thermal_get_trip_points pdev);
         temp_critical := snd (of_thermal_get_trip_points pdev);
         fuse_calib_val := 0 |}
  | _, _, _ => tmu_zeroed (of_iomap_tmu pdev)
  end.

Definition machine_after_enable (pdev : platform_device) (m : machine)
  : machine :=
  let ter := of_iomap_tmu pdev + TER in
  record (EvWritel (Z.lor (Int.u32 (bus m (trace m) ter)) TER_EN) ter)
    (record (EvReadl ter) m).

(** The low eight bits of the fuse word that the probe function reads on
    machine [m0] with the fuse block mapped as [pdev] says. *)
Definition fuse8 (pdev : platform_device) (m0 : machine) : Z :=
  Z.land (Int.u32 (bus m0 (trace m0) (of_iomap_ocotp pdev + OCOTP_TMU_CALIB)))
    TEMP_VAL_MASK.

(** The two log lines that close the probe function. *)
Definition log_hw_calibrated : event :=
  EvLog KERN_WARNING
    "using (potentially bugy) imx8mm hardware calibrated value" [].

Definition log_sw_calibrated (val : Z) : event :=
  EvLog KERN_INFO "using software calibrated temperature: OTP_CAL = %d" [val].


(* ===================================================================== *)
(** ** Removal *)

(** [imx8mm_tmu_remove(pdev)], on the structure that
    [platform_get_drvdata] returns.  [clk_disable_unprepare] belongs to
    the clock framework; it is a parameter, and may do to the machine
    whatever it does. *)
Definition imx8mm_tmu_remove (clk_disable_unprepare : Z -> io unit)
  (tmu : imx8mm_tmu) : io Z :=
  emit (EvUnbindCooling IMX_TRIP_PASSIVE) ;;;
  emit EvCoolingUnregister ;;;
  val <- readl_relaxed (tmu_base tmu + TER) ;;
  let val := Int.u32 (Z.land val (Z.lnot TER_EN)) in
  writel_relaxed val (tmu_base tmu + TER) ;;;
  clk_disable_unprepare (clk tmu) ;;;
  iounmap (tmu_base tmu) ;;;
  ret 0.

(* ===================================================================== *)
(** ** Further vocabulary *)

(** A clock framework that leaves the machine alone. *)
Definition clk_quiet (clk : Z) : io unit := ret tt.

(** The word most recently written to [addr] in a history, [init] when
    there is none; and a machine whose registers keep what is written to
    them (all start at [init]). *)
Fixpoint last_written (h : list event) (addr init : Z) : Z :=
  match h with
  | [] => init
  | EvWritel v a :: h' =>
      if a =? addr then v else last_written h' addr init
  | _ :: h' => last_written h' addr init
  end.

Definition machine_mem (init : Z) : machine :=
  {| bus := fun h a => last_written h a init; trace := [] |}.

(** A machine on which the immediate-temperature register of the window
    at [base] reads [imm] and every other register reads [raw]. *)
Definition machine_imm_raw (base imm raw : Z) : machine :=
  {| bus := fun _ a => if a =? base + TRITSR then imm else raw;
     trace := [] |}.

(** The effects [tmu_get_temp] may perform on the window of [tmu]. *)
Definition is_sampling_event (tmu : imx8mm_tmu) (e : event) : bool :=
  match e with
  | EvReadl a => (a =? tmu_base tmu + TRITSR) || (a =? tmu_base tmu + TSCR)
  | EvMsleep ms => ms =? 10
  | _ => false
  end.

Definition is_writel (e : event) : bool :=
  match e with EvWritel _ _ => true | _ => false end.

Definition is_register_access (e : event) : bool :=
  match e with
  | EvReadl _ | EvWritel _ _ | EvIounmap _ => true
  | _ => false
  end.

Definition is_cooling_release (e : event) : bool :=
  match e with
  | EvUnbindCooling _ | EvCoolingUnregister => true
  | _ => false
  end.

(** The steps of the probe function up to and including the mapping of
    the register window succeed. *)
Definition window_mapped (pdev : platform_device) : bool :=
  of_node pdev && devm_kzalloc pdev && negb (of_iomap_tmu pdev =? 0).

(** A platform like [platform_ok true 0x8000] whose cooling-device
    registration and hwmon registration answer as given. *)
Definition platform_with (cooling : err_ptr Z) (hwmon : Z)
  : platform_device :=
  {| of_node := true;
     devm_kzalloc := true;
     of_iomap_tmu := 0x1000;
     devm_clk_get := Ptr 0x3000;
     devm_thermal_zone_of_sensor_register :=
       Ptr {| temperature := 0; no_hwmon := true |};
     devfreq_cooling_register := cooling;
     thermal_zone_bind_cooling_device := 0;
     of_thermal_get_trip_points := (85000, 95000);
     clk_prepare_enable := 0;
     thermal_add_hwmon_sysfs := hwmon;
     of_find_compatible_node := true;
     of_iomap_ocotp := 0x8000 |}.

(** [IS_ERR] of [linux/err.h] holds of the addresses that encode an error
    number between [-MAX_ERRNO] and [-1]; an [ErrPtr] of the platform is
    well formed when it carries such a number. *)
Definition MAX_ERRNO : Z := 4095.

Definition err_ptr_valid {A : Type} (p : err_ptr A) : bool :=
  match p with
  | Ptr _ => true
  | ErrPtr e => (- MAX_ERRNO <=? e) && (e <=? -1)
  end.

Definition err_ptrs_valid (pdev : platform_device) : bool :=
  err_ptr_valid (devm_clk_get pdev)
  && err_ptr_valid (devm_thermal_zone_of_sensor_register pdev)
  && err_ptr_valid (devfreq_cooling_register pdev).

(** The steps of the probe function up to and including the enabling of
    the clock succeed (the monitor is then enabled and hwmon registration
    is next). *)
Definition reaches_hwmon (pdev : platform_device) : bool :=
  window_mapped pdev
  && is_ptr (devm_clk_get pdev)
  && is_ptr (devm_thermal_zone_of_sensor_register pdev)
  && is_ptr (devfreq_cooling_register pdev)
  && (thermal_zone_bind_cooling_device pdev =? 0)
  && (clk_prepare_enable pdev =? 0).

(** The steps of the probe function before the registration of the
    cooling device succeed. *)
Definition reaches_cooling (pdev : platform_device) : bool :=
  window_mapped pdev
  && is_ptr (devm_clk_get pdev)
  && is_ptr (devm_thermal_zone_of_sensor_register pdev).

(* ===================================================================== *)
(** ** Facts about machine integers *)

Module IntFacts.
Import Int.

Lemma modulus_eq : modulus = 4294967296.
Proof. reflexivity. Qed.

Lemma half_modulus_eq : half_modulus = 2147483648.
Proof. reflexivity. Qed.

Lemma u32_range z : 0 <= u32 z < modulus.
Proof. unfold u32. apply Z.mod_pos_bound. reflexivity. Qed.

Lemma u32_small z : 0 <= z < modulus -> u32 z = z.
Proof. intros H. unfold u32. apply Z.mod_small. exact H. Qed.

Lemma u32_idem z : u32 (u32 z) = u32 z.
Proof. unfold u32. apply Z.mod_mod. rewrite modulus_eq. lia. Qed.

Lemma u32_shift z : u32 (z + modulus) = u32 z.
Proof.
  unfold u32. rewrite <- (Z.mul_1_l modulus) at 1.
  apply Z.mod_add. rewrite modulus_eq. lia.
Qed.

Lemma u32_wrap_neg z : - modulus <= z < 0 -> u32 z = z + modulus.
Proof.
  intros H. rewrite <- u32_shift. apply u32_small. lia.
Qed.

Lemma s32_small z : INT_MIN <= z <= INT_MAX -> s32 z = z.
Proof.
  unfold INT_MIN, INT_MAX, s32. rewrite modulus_eq, half_modulus_eq.
  intros H. rewrite Z.mod_small by lia. lia.
Qed.

Lemma s32_u32 z : s32 (u32 z) = s32 z.
Proof.
  unfold s32, u32. f_equal.
  rewrite Zplus_mod_idemp_l. reflexivity.
Qed.

Lemma uadd_usub a b k : uadd (usub a b) k = u32 (a - b + k).
Proof. unfold uadd, usub, u32. apply Zplus_mod_idemp_l. Qed.

Lemma umul_u32 a k : umul (u32 a) k = u32 (a * k).
Proof. unfold umul, u32. apply Zmult_mod_idemp_l. Qed.

(** The word written to [*temp]: the [u32] product converted to [int]
    is the signed product whenever that fits. *)
Lemma s32_umul_u32 a k :
  INT_MIN <= a * k <= INT_MAX -> s32 (umul (u32 a) k) = a * k.
Proof.
  intros H. rewrite umul_u32, s32_u32. apply s32_small. exact H.
Qed.

Lemma land_mask_mod x : Z.land x TEMP_VAL_MASK = x mod 256.
Proof.
  change TEMP_VAL_MASK with (Z.ones 8).
  rewrite Z.land_ones by lia. reflexivity.
Qed.

Lemma land_mask_range x : 0 <= Z.land x TEMP_VAL_MASK <= 255.
Proof.
  rewrite land_mask_mod.
  pose proof (Z.mod_pos_bound x 256 ltac:(lia)). lia.
Qed.

(** [~0] converted to [u32] is the all-ones word. *)
Lemma int_not_zero : int_not_as_u32 0 = 4294967295.
Proof. reflexivity. Qed.

End IntFacts.

(* ===================================================================== *)
(** ** Facts about one attempt and about [tmu_get_temp] *)

Lemma reg8_range tmu off m : 0 <= reg8 tmu off m <= 255.
Proof. unfold reg8. apply IntFacts.land_mask_range. Qed.

Lemma calibrate_off tmu val m :
  do_calib tmu = false ->
  imx8mm_get_calibrate_temp tmu val m = (val, m).
Proof.
  intros H. unfold imx8mm_get_calibrate_temp. rewrite H. reflexivity.
Qed.

Lemma calibrate_on tmu val m :
  do_calib tmu = true ->
  imx8mm_get_calibrate_temp tmu val m =
    (Int.u32 (reg8 tmu TSCR m - fuse_calib_val tmu + 25),
     record (EvReadl (tmu_base tmu + TSCR)) m).
Proof.
  intros H. unfold imx8mm_get_calibrate_temp. rewrite H.
  unfold bind, readl_relaxed, ret, reg8.
  rewrite IntFacts.uadd_usub. reflexivity.
Qed.

Lemma attempt_off tmu m :
  do_calib tmu = false ->
  attempt tmu m =
    (reg8 tmu TRITSR m, record (EvReadl (tmu_base tmu + TRITSR)) m).
Proof.
  intros H. unfold attempt, bind, readl_relaxed.
  rewrite calibrate_off by exact H. reflexivity.
Qed.

Lemma attempt_on tmu m :
  do_calib tmu = true ->
  attempt tmu m =
    (Int.u32 (reg8 tmu TSCR (record (EvReadl (tmu_base tmu + TRITSR)) m)
              - fuse_calib_val tmu + 25),
     record (EvReadl (tmu_base tmu + TSCR))
       (record (EvReadl (tmu_base tmu + TRITSR)) m)).
Proof.
  intros H. unfold attempt, bind, readl_relaxed.
  rewrite calibrate_on by exact H. reflexivity.
Qed.

(** [tmu_get_temp] is: one attempt; when it is below the limit, a delay of
    10 ms and a second attempt. *)
Lemma tmu_get_temp_attempts tmu temp m :
  tmu_get_temp tmu temp m =
    let a1 := attempt tmu m in
    if fst a1 <? TEMP_LOW_LIMIT then
      let a2 := attempt tmu (record (EvMsleep 10) (snd a1)) in
      if fst a2 <? TEMP_LOW_LIMIT then ((- EAGAIN, temp), snd a2)
      else ((0, Int.s32 (Int.umul (fst a2) 1000)), snd a2)
    else ((0, Int.s32 (Int.umul (fst a1) 1000)), snd a1).
Proof.
  unfold tmu_get_temp, attempt, bind, msleep, emit, ret; cbn zeta.
  destruct (readl_relaxed (tmu_base tmu + TRITSR) m) as [r1 m1].
  destruct (imx8mm_get_calibrate_temp tmu (Z.land r1 TEMP_VAL_MASK) m1)
    as [v1 m1']; cbn [fst snd].
  destruct (v1 <? TEMP_LOW_LIMIT); [|reflexivity].
  destruct (readl_relaxed (tmu_base tmu + TRITSR) (record (EvMsleep 10) m1'))
    as [r2 m2].
  destruct (imx8mm_get_calibrate_temp tmu (Z.land r2 TEMP_VAL_MASK) m2)
    as [v2 m2']; cbn [fst snd].
  destruct (v2 <? TEMP_LOW_LIMIT); reflexivity.
Qed.

Lemma count_cons p e tr :
  count p (e :: tr) = ((if p e then 1 else 0) + count p tr)%nat.
Proof. unfold count. cbn [filter]. destruct (p e); reflexivity. Qed.

Lemma attempt_trace tmu m :
  trace (snd (attempt tmu m)) =
    if do_calib tmu
    then EvReadl (tmu_base tmu + TSCR)
           :: EvReadl (tmu_base tmu + TRITSR) :: trace m
    else EvReadl (tmu_base tmu + TRITSR) :: trace m.
Proof.
  destruct (do_calib tmu) eqn:E.
  - rewrite attempt_on by exact E. reflexivity.
  - rewrite attempt_off by exact E. reflexivity.
Qed.

Lemma attempt_no_msleep tmu m :
  count is_msleep (trace (snd (attempt tmu m))) = count is_msleep (trace m).
Proof.
  rewrite attempt_trace. destruct (do_calib tmu);
    rewrite ?count_cons; reflexivity.
Qed.

Lemma attempt_reads_tritsr tmu m :
  count (is_readl (tmu_base tmu + TRITSR)) (trace (snd (attempt tmu m))) =
    S (count (is_readl (tmu_base tmu + TRITSR)) (trace m)).
Proof.
  rewrite attempt_trace. destruct (do_calib tmu);
    rewrite ?count_cons; cbn [is_readl]; rewrite Z.eqb_refl.
  - replace (tmu_base tmu + TSCR =? tmu_base tmu + TRITSR) with false.
    + reflexivity.
    + symmetry. apply Z.eqb_neq. unfold TSCR, TRITSR. lia.
  - reflexivity.
Qed.

(* ===================================================================== *)
(** ** Facts about the probe function *)

Lemma probe_reaches_calibration pdev m :
  preamble_ok pdev = true ->
  imx8mm_tmu_probe pdev m =
    probe_calibration pdev (tmu_before_calibration pdev)
      (machine_after_enable pdev m).
Proof.
  unfold preamble_ok, imx8mm_tmu_probe, tmu_before_calibration,
    machine_after_enable.
  intros H. repeat (apply andb_prop in H; destruct H as [H ?]).
  rewrite H. cbn [negb tmu_zeroed tmu_base].
  match goal with E : devm_kzalloc _ = _ |- _ => rewrite E end.
  match goal with E : negb _ = true |- _ =>
    apply negb_true_iff in E; rewrite E end.
  cbn [negb].
  destruct (devm_clk_get pdev) as [c|e]; [|discriminate].
  destruct (devm_thermal_zone_of_sensor_register pdev) as [tz|e];
    [|discriminate].
  destruct (devfreq_cooling_register pdev) as [cd|e]; [|discriminate].
  repeat match goal with E : (_ =? 0) = true |- _ => rewrite E; clear E end.
  reflexivity.
Qed.

(** The test [val == 0 || val == ~0] on a masked value only ever detects
    zero: a value of at most [0xff] is never the all-ones word. *)
Lemma fuse_test_only_zero r :
  let val := Z.land r TEMP_VAL_MASK in
  (val =? 0) || (val =? Int.int_not_as_u32 0) = (val =? 0).
Proof.
  cbv zeta. pose proof (IntFacts.land_mask_range r) as R.
  rewrite IntFacts.int_not_zero.
  replace (Z.land r TEMP_VAL_MASK =? 4294967295) with false.
  - apply orb_false_r.
  - symmetry. apply Z.eqb_neq. lia.
Qed.

(** What the calibration part does, case by case. *)
Lemma probe_calibration_cases pdev tmu m0 :
  let res := probe_calibration pdev tmu m0 in
  let v := fuse8 pdev m0 in
  let base := of_iomap_ocotp pdev in
  if negb (of_find_compatible_node pdev) then
    res = ((0, DrvInstance (set_do_calib false tmu)),
           {| bus := bus m0;
              trace := log_hw_calibrated
                :: EvLog KERN_WARNING "failed to find ocotp node" []
                :: trace m0 |})
  else if base =? 0 then
    res = ((0, DrvInstance (set_do_calib false tmu)),
           {| bus := bus m0;
              trace := log_hw_calibrated :: EvOfNodePut
                :: EvLog KERN_WARNING "failed to map ocotp" []
                :: trace m0 |})
  else if v =? 0 then
    res = ((0, DrvInstance (set_do_calib false tmu)),
           {| bus := bus m0;
              trace := log_hw_calibrated :: EvOfNodePut :: EvIounmap base
                :: EvLog KERN_ERR "invalid sensor calibration data" []
                :: EvReadl (base + OCOTP_TMU_CALIB) :: trace m0 |})
  else
    res = ((0, DrvInstance (set_do_calib true
                       (set_fuse_calib_val v (set_do_calib false tmu)))),
           {| bus := bus m0;
              trace := log_sw_calibrated v :: EvOfNodePut :: EvIounmap base
                :: EvReadl (base + OCOTP_TMU_CALIB) :: trace m0 |}).
Proof.
  cbv zeta.
  destruct (negb (of_find_compatible_node pdev)) eqn:E1;
    [unfold probe_calibration; rewrite E1; reflexivity|].
  destruct (of_iomap_ocotp pdev =? 0) eqn:E2;
    [unfold probe_calibration; rewrite E1, E2; reflexivity|].
  destruct (fuse8 pdev m0 =? 0) eqn:E3;
    unfold probe_calibration; rewrite E1, E2;
    unfold bind at 1; unfold readl_relaxed at 1;
    rewrite fuse_test_only_zero; fold (fuse8 pdev m0);
    rewrite E3; reflexivity.
Qed.

(** Whatever the fuse block answers, the calibration part ends with
    status 0 and leaves the structure in place. *)
Lemma probe_calibration_succeeds pdev tmu m0 :
  exists tmu', fst (probe_calibration pdev tmu m0) = (0, DrvInstance tmu').
Proof.
  pose proof (probe_calibration_cases pdev tmu m0) as H. cbv zeta in H.
  destruct (negb (of_find_compatible_node pdev));
    [|destruct (of_iomap_ocotp pdev =? 0);
      [|destruct (fuse8 pdev m0 =? 0)]];
    rewrite H; eexists; reflexivity.
Qed.

(** An instance that a successful probe leaves in calibrated mode holds an
    offset between 1 and 255. *)
Lemma probe_calibrated_offset_range pdev m tmu :
  fst (imx8mm_tmu_probe pdev m) = (0, DrvInstance tmu) ->
  preamble_ok pdev = true ->
  do_calib tmu = true ->
  1 <= fuse_calib_val tmu <= 255.
Proof.
  intros Hres Hpre Hcal.
  rewrite probe_reaches_calibration in Hres by exact Hpre.
  pose proof (probe_calibration_cases pdev (tmu_before_calibration pdev)
                (machine_after_enable pdev m)) as H. cbv zeta in H.
  destruct (negb (of_find_compatible_node pdev));
    [|destruct (of_iomap_ocotp pdev =? 0);
      [|destruct (fuse8 pdev (machine_after_enable pdev m) =? 0) eqn:E]];
    rewrite H in Hres; cbn [fst] in Hres; inversion Hres; subst tmu;
    try discriminate Hcal.
  cbn [fuse_calib_val set_do_calib set_fuse_calib_val].
  apply Z.eqb_neq in E.
  pose proof (IntFacts.land_mask_range
    (Int.u32 (bus (machine_after_enable pdev m)
                (trace (machine_after_enable pdev m))
                (of_iomap_ocotp pdev + OCOTP_TMU_CALIB)))) as R.
  fold (fuse8 pdev (machine_after_enable pdev m)) in R. lia.
Qed.

(* ===================================================================== *)
(** ** Calibration resolution (4.1) *)

(** C1, evaluated at the fuse value [0xFF].  The specification asks for
    the uncalibrated outcome there; the probe function tests the masked
    byte against [~0], the 32-bit all-ones word, which a byte never
    equals, so the instance ends in calibrated mode with offset 255 and
    logs the software-calibration line. *)
Theorem C1_fuse_ff_ends_calibrated :
  let res := imx8mm_tmu_probe (platform_ok true 0x8000)
               (machine_reg (0x8000 + OCOTP_TMU_CALIB) 0xff) in
  status res = 0 /\
  option_map calibration_of (instance_of (output res))
    = Some (Calibrated 255) /\
  hd_error (trace (final res)) = Some (log_sw_calibrated 255).
Proof.
  cbv zeta. vm_compute. repeat split.
Qed.

(** The calibration outcome of a probe whose fuse block is found and
    mapped, for every fuse word: uncalibrated exactly for a zero byte,
    otherwise calibrated with the byte as offset. *)
Lemma probe_outcome_by_fuse_byte pdev m :
  preamble_ok pdev = true ->
  of_find_compatible_node pdev = true ->
  of_iomap_ocotp pdev <> 0 ->
  let v := fuse8 pdev (machine_after_enable pdev m) in
  option_map calibration_of (instance_of (output (imx8mm_tmu_probe pdev m))) =
    Some (if v =? 0 then Uncalibrated else Calibrated v).
Proof.
  intros Hpre Hnode Hmap. cbv zeta.
  rewrite probe_reaches_calibration by exact Hpre.
  pose proof (probe_calibration_cases pdev (tmu_before_calibration pdev)
                (machine_after_enable pdev m)) as H. cbv zeta in H.
  rewrite Hnode in H. cbn [negb] in H.
  apply Z.eqb_neq in Hmap. rewrite Hmap in H.
  destruct (fuse8 pdev (machine_after_enable pdev m) =? 0);
    rewrite H; reflexivity.
Qed.

(* ===================================================================== *)
(** ** The calibration formula (4.2) *)




(* ===================================================================== *)
(** ** Scaling, range and retry of [tmu_get_temp] (4.2) *)

(** The word stored in [*temp] for an accepted attempt. *)
Lemma accepted_value_scaled tmu m :
  (do_calib tmu = true -> 1 <= fuse_calib_val tmu <= 255) ->
  10 <= fst (attempt tmu m) ->
  exists d,
    Int.s32 (Int.umul (fst (attempt tmu m)) 1000) = d * 1000 /\
    (do_calib tmu = false -> 10 <= d <= 255) /\
    (do_calib tmu = true ->
       exists r, 0 <= r <= 255 /\ d = r - fuse_calib_val tmu + 25 /\
         (fuse_calib_val tmu <= r + 25 -> 10 <= d <= 279) /\
         (r + 25 < fuse_calib_val tmu -> -230 <= d <= -1)).
Proof.
  intros Hreach Hacc.
  destruct (do_calib tmu) eqn:Hcal.
  - specialize (Hreach eq_refl).
    rewrite attempt_on in * by exact Hcal. cbn [fst] in *.
    set (m1 := record (EvReadl (tmu_base tmu + TRITSR)) m) in *.
    pose proof (reg8_range tmu TSCR m1) as Hr.
    exists (reg8 tmu TSCR m1 - fuse_calib_val tmu + 25).
    split; [|split; [discriminate|]].
    + apply IntFacts.s32_umul_u32.
      unfold Int.INT_MIN, Int.INT_MAX. rewrite IntFacts.half_modulus_eq. lia.
    + intros _. exists (reg8 tmu TSCR m1).
      split; [exact Hr | split; [reflexivity | split]].
      * intros Hle.
        rewrite IntFacts.u32_small in Hacc
          by (rewrite IntFacts.modulus_eq; lia).
        lia.
      * intros Hlt. lia.
  - rewrite attempt_off in * by exact Hcal. cbn [fst] in *.
    pose proof (reg8_range tmu TRITSR m) as Hr.
    exists (reg8 tmu TRITSR m).
    split; [|split; [intros _; lia | discriminate]].
    rewrite <- (IntFacts.u32_small (reg8 tmu TRITSR m)) at 1
      by (rewrite IntFacts.modulus_eq; lia).
    apply IntFacts.s32_umul_u32.
    unfold Int.INT_MIN, Int.INT_MAX. rewrite IntFacts.half_modulus_eq. lia.
Qed.

(** C3 as stated fails: in calibrated mode with offset 1, a raw value of
    255 is reported as 279000, that is 279 degrees, above 255. *)
Lemma C3_reports_279_degrees :
  let tmu := tmu_sample true 1 0 in
  let res := tmu_get_temp tmu 0 (machine_const 255) in
  calibration_of tmu = Calibrated 1 /\
  status res = 0 /\
  output res = 279000 /\
  ~ (10 <= output res / 1000 <= 255).
Proof.
  cbv zeta. vm_compute. repeat split.
  intros [_ H]. apply H. reflexivity.
Qed.

(** C3, amended.  On an instance as the probe function leaves it
    (uncalibrated, or calibrated with an offset [c] between 1 and 255),
    whenever [tmu_get_temp] returns 0 and no calibrated value computed
    during the call is negative, the value it stores is the degree value
    [d] of the accepted attempt times 1000, hence a multiple of 1000.
    Uncalibrated, [d] is the masked immediate-temperature reading (the
    first one, or the one after the delay when the first is below 10) and
    lies in [10, 255].  Calibrated, [d = r - c + 25] for the byte [r] that
    the raw sensor register delivers in the accepted attempt, and lies in
    [10, 279].  Nothing is said here of calls in which [r - c + 25] is
    negative. *)
Theorem C3_success_is_degrees_times_1000 tmu temp m :
  (do_calib tmu = true -> 1 <= fuse_calib_val tmu <= 255) ->
  status (tmu_get_temp tmu temp m) = 0 ->
  let c := fuse_calib_val tmu in
  let tritsr := tmu_base tmu + TRITSR in
  let tscr := tmu_base tmu + TSCR in
  let res := tmu_get_temp tmu temp m in
  (do_calib tmu = false ->
     let imm1 := reg8 tmu TRITSR m in
     let imm2 :=
       reg8 tmu TRITSR (record (EvMsleep 10) (record (EvReadl tritsr) m)) in
     exists d,
       output res = d * 1000 /\ 10 <= d <= 255 /\
       ((10 <= imm1 /\ d = imm1) \/ (imm1 < 10 /\ d = imm2)))
  /\
  (do_calib tmu = true ->
     let m1 := record (EvReadl tritsr) m in
     let d1 := reg8 tmu TSCR m1 - c + 25 in
     let m2 := record (EvReadl tritsr)
                 (record (EvMsleep 10) (record (EvReadl tscr) m1)) in
     let d2 := reg8 tmu TSCR m2 - c + 25 in
     0 <= d1 -> (d1 < 10 -> 0 <= d2) ->
     exists d,
       output res = d * 1000 /\ 10 <= d <= 279 /\
       ((10 <= d1 /\ d = d1) \/ (d1 < 10 /\ d = d2))).
Proof.
  intros Hreach Hok. cbv zeta. split; intros Hcal.
  - revert Hok. rewrite tmu_get_temp_attempts. cbv zeta.
    rewrite !attempt_off by exact Hcal. cbn [fst snd].
    unfold status, output, TEMP_LOW_LIMIT.
    set (tritsr := tmu_base tmu + TRITSR).
    assert (Hscale : forall m', Int.s32 (Int.umul (reg8 tmu TRITSR m') 1000)
                                = reg8 tmu TRITSR m' * 1000).
    { intros m'. pose proof (reg8_range tmu TRITSR m') as R.
      rewrite <- (IntFacts.u32_small (reg8 tmu TRITSR m')) at 1
        by (rewrite IntFacts.modulus_eq; lia).
      apply IntFacts.s32_umul_u32.
      unfold Int.INT_MIN, Int.INT_MAX. rewrite IntFacts.half_modulus_eq.
      lia. }
    set (imm1 := reg8 tmu TRITSR m).
    set (imm2 := reg8 tmu TRITSR
                   (record (EvMsleep 10) (record (EvReadl tritsr) m))).
    pose proof (reg8_range tmu TRITSR m) as R1. fold imm1 in R1.
    pose proof (reg8_range tmu TRITSR
                  (record (EvMsleep 10) (record (EvReadl tritsr) m))) as R2.
    fold imm2 in R2.
    destruct (imm1 <? 10) eqn:E1.
    + apply Z.ltb_lt in E1. destruct (imm2 <? 10) eqn:E2; cbn [fst snd].
      * unfold EAGAIN. discriminate.
      * intros _. apply Z.ltb_ge in E2. exists imm2.
        split; [apply Hscale|]. split; [lia|]. right. split; [lia|reflexivity].
    + intros _. apply Z.ltb_ge in E1. cbn [fst snd]. exists imm1.
      split; [apply Hscale|]. split; [lia|]. left. split; [lia|reflexivity].
  - specialize (Hreach Hcal). intros Hd1 Hd2.
    revert Hok. rewrite tmu_get_temp_attempts. cbv zeta.
    rewrite !attempt_on by exact Hcal. cbn [fst snd].
    unfold status, output, TEMP_LOW_LIMIT.
    set (tritsr := tmu_base tmu + TRITSR) in *.
    set (tscr := tmu_base tmu + TSCR) in *.
    set (m1 := record (EvReadl tritsr) m) in *.
    set (m2 := record (EvReadl tritsr)
                 (record (EvMsleep 10) (record (EvReadl tscr) m1))) in *.
    pose proof (reg8_range tmu TSCR m1) as R1.
    pose proof (reg8_range tmu TSCR m2) as R2.
    set (d1 := reg8 tmu TSCR m1 - fuse_calib_val tmu + 25) in *.
    set (d2 := reg8 tmu TSCR m2 - fuse_calib_val tmu + 25) in *.
    assert (Hsmall : forall d, 0 <= d <= 279 -> Int.u32 d = d).
    { intros d Hd. apply IntFacts.u32_small.
      rewrite IntFacts.modulus_eq. lia. }
    assert (Hscale : forall d, 0 <= d <= 279 ->
              Int.s32 (Int.umul d 1000) = d * 1000).
    { intros d Hd. rewrite <- (Hsmall d Hd) at 1.
      apply IntFacts.s32_umul_u32.
      unfold Int.INT_MIN, Int.INT_MAX. rewrite IntFacts.half_modulus_eq.
      lia. }
    assert (B1 : 0 <= d1 <= 279) by (subst d1; lia).
    rewrite (Hsmall d1 B1).
    destruct (d1 <? 10) eqn:E1.
    + apply Z.ltb_lt in E1. specialize (Hd2 E1).
      assert (B2 : 0 <= d2 <= 279) by (subst d2; lia).
      rewrite (Hsmall d2 B2).
      destruct (d2 <? 10) eqn:E2; cbn [fst snd].
      * unfold EAGAIN. discriminate.
      * intros _. apply Z.ltb_ge in E2. exists d2.
        split; [apply Hscale; exact B2|].
        split; [lia|]. right. split; [exact E1 | reflexivity].
    + intros _. apply Z.ltb_ge in E1. cbn [fst snd]. exists d1.
      split; [apply Hscale; exact B1|].
      split; [lia|]. left. split; [exact E1 | reflexivity].
Qed.

(** The second example of the specification: fuse 20, raw sensor value
    30, reported as 35000. *)
Lemma C3_success_is_degrees_times_1000_witness :
  let tmu := tmu_sample true 20 0 in
  let res := tmu_get_temp tmu 0 (machine_const 30) in
  (do_calib tmu = true -> 1 <= fuse_calib_val tmu <= 255) /\
  status res = 0 /\
  exists d, output res = d * 1000 /\ 10 <= d <= 279 /\ d = 30 - 20 + 25.
Proof.
  cbv zeta.
  assert (Hreach : do_calib (tmu_sample true 20 0) = true ->
                   1 <= fuse_calib_val (tmu_sample true 20 0) <= 255)
    by (intros _; vm_compute; split; discriminate).
  split; [exact Hreach | split; [reflexivity|]].
  destruct (C3_success_is_degrees_times_1000 (tmu_sample true 20 0) 0
              (machine_const 30) Hreach eq_refl) as [_ Hon].
  destruct (Hon eq_refl) as (d & Hd & Hrange & Hwhich).
  - vm_compute. discriminate.
  - intros _. vm_compute. discriminate.
  - exists d. split; [exact Hd | split; [exact Hrange|]].
    destruct Hwhich as [[_ E]|[Hlt _]].
    + exact E.
    + exfalso. revert Hlt. vm_compute. discriminate.
Defined.

(** C4, evaluated at a calibrated reading below zero.  With the offset
    100 (which the probe function stores for the fuse byte 100) and a raw
    sensor value of 0, the calibrated temperature [0 - 100 + 25] is -75
    degrees, below the low limit 10, at every attempt.  The function
    compares the [u32] variable, which holds [2^32 - 75], with the limit:
    it takes no delay, makes no second attempt, and returns 0 with -75000
    instead of [-EAGAIN]. *)
Theorem C4_negative_reading_is_not_retried :
  let tmu := tmu_sample true 100 0 in
  let m := machine_const 0 in
  let res := tmu_get_temp tmu 7 m in
  option_map calibration_of
    (instance_of (output (imx8mm_tmu_probe (platform_ok true 0x8000)
                            (machine_reg (0x8000 + OCOTP_TMU_CALIB) 100))))
    = Some (calibration_of tmu) /\
  reg8 tmu TSCR (record (EvReadl (tmu_base tmu + TRITSR)) m)
    - fuse_calib_val tmu + 25 = -75 /\
  status res = 0 /\
  output res = -75000 /\
  trace (final res) =
    [EvReadl (tmu_base tmu + TSCR); EvReadl (tmu_base tmu + TRITSR)] /\
  count is_msleep (trace (final res)) = 0%nat.
Proof.
  cbv zeta. vm_compute. repeat split.
Qed.

(** The retry of [tmu_get_temp], on the values that the [u32] variable
    [val] holds after each attempt: the delay and the second attempt take
    place exactly when the first value is below 10, and the status is
    [-EAGAIN] exactly when both values are. *)
Lemma get_temp_retry_on_stored_values tmu temp m :
  let a1 := attempt tmu m in
  let a2 := attempt tmu (record (EvMsleep 10) (snd a1)) in
  let res := tmu_get_temp tmu temp m in
  (status res = - EAGAIN <-> fst a1 < 10 /\ fst a2 < 10) /\
  (status res = 0 <-> ~ (fst a1 < 10 /\ fst a2 < 10)) /\
  final res = (if fst a1 <? 10 then snd a2 else snd a1) /\
  count is_msleep (trace (final res)) =
    (count is_msleep (trace m) + (if (fst a1 <? 10)%Z then 1 else 0))%nat /\
  count (is_readl (tmu_base tmu + TRITSR)) (trace (final res)) =
    (count (is_readl (tmu_base tmu + TRITSR)) (trace m)
     + (if (fst a1 <? 10)%Z then 2 else 1))%nat.
Proof.
  cbv zeta. rewrite tmu_get_temp_attempts. cbv zeta.
  unfold status, final, TEMP_LOW_LIMIT, EAGAIN.
  destruct (fst (attempt tmu m) <? 10) eqn:E1.
  - apply Z.ltb_lt in E1.
    set (m1 := record (EvMsleep 10) (snd (attempt tmu m))).
    assert (Hs : count is_msleep (trace (snd (attempt tmu m1))) =
                 (count is_msleep (trace m) + 1)%nat).
    { rewrite attempt_no_msleep. subst m1. cbn [record trace].
      rewrite count_cons. cbn [is_msleep].
      rewrite attempt_no_msleep. lia. }
    assert (Hr : count (is_readl (tmu_base tmu + TRITSR))
                   (trace (snd (attempt tmu m1))) =
                 (count (is_readl (tmu_base tmu + TRITSR)) (trace m) + 2)%nat).
    { rewrite attempt_reads_tritsr. subst m1. cbn [record trace].
      rewrite count_cons. cbn [is_readl].
      rewrite attempt_reads_tritsr. lia. }
    destruct (fst (attempt tmu m1) <? 10) eqn:E2; cbn [fst snd].
    + apply Z.ltb_lt in E2.
      repeat split; try assumption; try lia; try discriminate.
    + apply Z.ltb_ge in E2.
      repeat split; try assumption; try lia; try discriminate.
  - apply Z.ltb_ge in E1. cbn [fst snd].
    repeat split; try lia; try discriminate.
    + rewrite attempt_no_msleep. lia.
    + rewrite attempt_reads_tritsr. lia.
Qed.

(** C9.  With [do_calib] false the calibration step returns the value it
    was given and performs no effect, and a successful [tmu_get_temp]
    stores the masked immediate-temperature reading times 1000: the first
    reading when it is at least 10, else the reading taken after the
    delay; the raw sensor register [TSCR] is not read. *)
Theorem C9_uncalibrated_reports_immediate tmu temp m :
  do_calib tmu = false ->
  status (tmu_get_temp tmu temp m) = 0 ->
  let tritsr := tmu_base tmu + TRITSR in
  let r1 := reg8 tmu TRITSR m in
  let r2 := reg8 tmu TRITSR (record (EvMsleep 10) (record (EvReadl tritsr) m)) in
  let res := tmu_get_temp tmu temp m in
  (forall val m', imx8mm_get_calibrate_temp tmu val m' = (val, m')) /\
  count (is_readl (tmu_base tmu + TSCR)) (trace (final res)) =
    count (is_readl (tmu_base tmu + TSCR)) (trace m) /\
  ((10 <= r1 /\ output res = r1 * 1000 /\
    trace (final res) = EvReadl tritsr :: trace m)
   \/
   (r1 < 10 /\ 10 <= r2 /\ output res = r2 * 1000 /\
    trace (final res) =
      EvReadl tritsr :: EvMsleep 10 :: EvReadl tritsr :: trace m)).
Proof.
  intros Hcal. cbv zeta.
  intros Hok. split; [intros val m'; apply calibrate_off; exact Hcal|].
  revert Hok. rewrite tmu_get_temp_attempts. cbv zeta.
  rewrite !attempt_off by exact Hcal. cbn [fst snd].
  unfold status, output, final, TEMP_LOW_LIMIT.
  set (tritsr := tmu_base tmu + TRITSR).
  assert (Hne : (tritsr =? tmu_base tmu + TSCR) = false).
  { apply Z.eqb_neq. subst tritsr. unfold TRITSR, TSCR. lia. }
  assert (Hscale : forall off m', Int.s32 (Int.umul (reg8 tmu off m') 1000)
                                  = reg8 tmu off m' * 1000).
  { intros off m'. pose proof (reg8_range tmu off m') as R.
    rewrite <- (IntFacts.u32_small (reg8 tmu off m')) at 1
      by (rewrite IntFacts.modulus_eq; lia).
    apply IntFacts.s32_umul_u32.
    unfold Int.INT_MIN, Int.INT_MAX. rewrite IntFacts.half_modulus_eq. lia. }
  destruct (reg8 tmu TRITSR m <? 10) eqn:E1.
  - apply Z.ltb_lt in E1.
    destruct (reg8 tmu TRITSR (record (EvMsleep 10) (record (EvReadl tritsr) m))
              <? 10) eqn:E2; cbn [fst snd].
    + unfold EAGAIN. discriminate.
    + intros _. apply Z.ltb_ge in E2. split.
      * cbn [record trace]. rewrite !count_cons. cbn [is_readl].
        rewrite Hne. reflexivity.
      * right. rewrite Hscale. repeat split; assumption.
  - intros _. apply Z.ltb_ge in E1. cbn [fst snd]. split.
    + cbn [record trace]. rewrite !count_cons. cbn [is_readl].
      rewrite Hne. reflexivity.
    + left. rewrite Hscale. repeat split; assumption.
Qed.

Lemma C9_uncalibrated_reports_immediate_witness :
  let tmu := tmu_sample false 0 0 in
  let res := tmu_get_temp tmu 0 (machine_warmup 5 40) in
  do_calib tmu = false /\ status res = 0 /\
  count (is_readl (tmu_base tmu + TSCR)) (trace (final res)) = 0%nat /\
  output res = 40 * 1000.
Proof.
  cbv zeta. split; [reflexivity | split; [reflexivity|]].
  destruct (C9_uncalibrated_reports_immediate
              (tmu_sample false 0 0) 0 (machine_warmup 5 40)
              eq_refl eq_refl) as (_ & Hcount & _).
  split; [exact Hcount | reflexivity].
Defined.

(* ===================================================================== *)
(** ** Trend and trip points (4.3) *)

(** What [tmu_get_trend] computes once the zone is registered, in the
    arithmetic of the source. *)
Lemma tmu_get_trend_registered tmu tz trip trend :
  tzd tmu = Some tz ->
  tmu_get_trend tmu trip trend =
    (0, if temperature tz >=?
           Int.ssub (if trip =? IMX_TRIP_PASSIVE then temp_passive tmu
                     else temp_critical tmu) IMX_TEMP_PASSIVE_COOL_DELTA
        then THERMAL_TREND_RAISE_FULL else THERMAL_TREND_DROP_FULL).
Proof.
  intros H. unfold tmu_get_trend. rewrite H.
  destruct (temperature tz >=? _); reflexivity.
Qed.

(** C5 as stated fails for a threshold at the bottom of the [int] range:
    with the passive trip at [INT_MIN] and the zone at 0, the zone is above
    [threshold - 10000], and the trend is falling, because the subtraction
    wraps to a large positive number. *)
Lemma C5_falling_above_wrapped_threshold :
  let tmu := set_temp_passive Int.INT_MIN (tmu_sample false 0 0) in
  let current := 0 in
  let threshold := temp_passive tmu in
  tzd tmu = Some {| temperature := current; no_hwmon := false |} /\
  Int.is_int threshold /\
  current >= threshold - 10000 /\
  tmu_get_trend tmu IMX_TRIP_PASSIVE THERMAL_TREND_STABLE
    = (0, THERMAL_TREND_DROP_FULL).
Proof.
  cbv zeta. vm_compute. repeat split; discriminate.
Qed.

(** C5, amended.  With the zone registered and the selected threshold at
    least [INT_MIN + 10000] (so that [threshold - 10000] is an [int]),
    [tmu_get_trend] reports [THERMAL_TREND_RAISE_FULL] exactly when the
    zone temperature is at least [threshold - 10000], equality included,
    and [THERMAL_TREND_DROP_FULL] otherwise. *)
Theorem C5_trend_by_threshold tmu tz trip trend :
  tzd tmu = Some tz ->
  let threshold :=
    if trip =? IMX_TRIP_PASSIVE then temp_passive tmu else temp_critical tmu in
  Int.INT_MIN + 10000 <= threshold <= Int.INT_MAX ->
  (tmu_get_trend tmu trip trend = (0, THERMAL_TREND_RAISE_FULL)
     <-> temperature tz >= threshold - 10000) /\
  (tmu_get_trend tmu trip trend = (0, THERMAL_TREND_DROP_FULL)
     <-> temperature tz < threshold - 10000) /\
  (temperature tz = threshold - 10000 ->
     tmu_get_trend tmu trip trend = (0, THERMAL_TREND_RAISE_FULL)).
Proof.
  intros Hz. cbv zeta. intros Hrange.
  rewrite (tmu_get_trend_registered tmu tz trip trend Hz).
  unfold Int.ssub, IMX_TEMP_PASSIVE_COOL_DELTA.
  rewrite IntFacts.s32_small
    by (revert Hrange; unfold Int.INT_MIN, Int.INT_MAX;
        rewrite IntFacts.half_modulus_eq; lia).
  set (threshold := if trip =? IMX_TRIP_PASSIVE then temp_passive tmu
                    else temp_critical tmu) in *.
  destruct (temperature tz >=? threshold - 10000) eqn:E.
  - assert (temperature tz >= threshold - 10000)
      by (rewrite Z.geb_leb in E; apply Z.leb_le in E; lia).
    split; [|split].
    + split; [intros _; assumption | reflexivity].
    + split; [discriminate | lia].
    + reflexivity.
  - assert (temperature tz < threshold - 10000)
      by (rewrite Z.geb_leb in E; apply Z.leb_gt in E; lia).
    split; [|split].
    + split; [discriminate | lia].
    + split; [intros _; assumption | reflexivity].
    + lia.
Qed.

(** The third example of the specification: passive trip 85000, zone at
    76000; and the boundary, zone at 75000. *)
Lemma C5_trend_by_threshold_witness :
  tmu_get_trend (tmu_sample false 0 76000) IMX_TRIP_PASSIVE
    THERMAL_TREND_STABLE = (0, THERMAL_TREND_RAISE_FULL) /\
  tmu_get_trend (tmu_sample false 0 75000) IMX_TRIP_PASSIVE
    THERMAL_TREND_STABLE = (0, THERMAL_TREND_RAISE_FULL).
Proof.
  assert (R : Int.INT_MIN + 10000 <= 85000 <= Int.INT_MAX)
    by (vm_compute; split; discriminate).
  split.
  - destruct (C5_trend_by_threshold (tmu_sample false 0 76000)
                {| temperature := 76000; no_hwmon := false |}
                IMX_TRIP_PASSIVE THERMAL_TREND_STABLE eq_refl R)
      as ((_ & Hrise) & _).
    apply Hrise. vm_compute. intros H. discriminate H.
  - destruct (C5_trend_by_threshold (tmu_sample false 0 75000)
                {| temperature := 75000; no_hwmon := false |}
                IMX_TRIP_PASSIVE THERMAL_TREND_STABLE eq_refl R)
      as (_ & _ & Hedge).
    apply Hedge. reflexivity.
Defined.

(** C6 as stated fails: with no zone registered the output is not set to
    [THERMAL_TREND_STABLE]; a caller whose variable holds
    [THERMAL_TREND_RAISE_FULL] still finds that value after the call. *)
Lemma C6_output_not_set_to_stable :
  let tmu := set_tzd None (tmu_sample false 0 0) in
  tzd tmu = None /\
  tmu_get_trend tmu IMX_TRIP_PASSIVE THERMAL_TREND_RAISE_FULL
    = (0, THERMAL_TREND_RAISE_FULL) /\
  snd (tmu_get_trend tmu IMX_TRIP_PASSIVE THERMAL_TREND_RAISE_FULL)
    <> THERMAL_TREND_STABLE.
Proof.
  cbv zeta. repeat split. discriminate.
Qed.

(** C6, amended.  With no zone registered, [tmu_get_trend] returns 0 for
    every trip selector and does not write the trend output: the caller's
    variable keeps the value it had. *)
Theorem C6_no_zone_leaves_trend tmu trip trend :
  tzd tmu = None ->
  tmu_get_trend tmu trip trend = (0, trend).
Proof.
  intros H. unfold tmu_get_trend. rewrite H. reflexivity.
Qed.

Lemma C6_no_zone_leaves_trend_witness :
  tmu_get_trend (set_tzd None (tmu_sample false 0 0)) IMX_TRIP_CRITICAL
    THERMAL_TREND_DROPPING = (0, THERMAL_TREND_DROPPING).
Proof.
  apply (C6_no_zone_leaves_trend (set_tzd None (tmu_sample false 0 0))
           IMX_TRIP_CRITICAL THERMAL_TREND_DROPPING).
  reflexivity.
Defined.

(** C8.  For both declared selectors [tmu_set_trip_temp] returns 0 and
    stores the supplied temperature, whatever it is, in the selected
    threshold; nothing else in the structure changes. *)
Theorem C8_set_trip_temp_overwrites tmu temp :
  tmu_set_trip_temp tmu IMX_TRIP_PASSIVE temp
    = (0, set_temp_passive temp tmu) /\
  tmu_set_trip_temp tmu IMX_TRIP_CRITICAL temp
    = (0, set_temp_critical temp tmu) /\
  temp_passive (set_temp_passive temp tmu) = temp /\
  temp_critical (set_temp_passive temp tmu) = temp_critical tmu /\
  temp_critical (set_temp_critical temp tmu) = temp /\
  temp_passive (set_temp_critical temp tmu) = temp_passive tmu.
Proof.
  repeat split.
Qed.

(** C10.  A selector other than [IMX_TRIP_PASSIVE], declared or not, makes
    [tmu_get_trend] compare against the critical trip temperature; and a
    selector that is neither declared value makes [tmu_set_trip_temp]
    return 0 with the structure, both thresholds included, unchanged. *)
Theorem C10_other_selectors tmu trip trend temp :
  trip <> IMX_TRIP_PASSIVE ->
  tmu_get_trend tmu trip trend = tmu_get_trend tmu IMX_TRIP_CRITICAL trend /\
  (forall tz, tzd tmu = Some tz ->
     tmu_get_trend tmu trip trend =
       (0, if temperature tz >=?
              Int.ssub (temp_critical tmu) IMX_TEMP_PASSIVE_COOL_DELTA
           then THERMAL_TREND_RAISE_FULL else THERMAL_TREND_DROP_FULL)) /\
  (trip <> IMX_TRIP_CRITICAL ->
     tmu_set_trip_temp tmu trip temp = (0, tmu)).
Proof.
  intros Hp. apply Z.eqb_neq in Hp. split; [|split].
  - unfold tmu_get_trend. rewrite Hp. reflexivity.
  - intros tz Hz. rewrite (tmu_get_trend_registered tmu tz trip trend Hz).
    rewrite Hp. reflexivity.
  - intros Hc. apply Z.eqb_neq in Hc.
    unfold tmu_set_trip_temp. rewrite Hc, Hp. reflexivity.
Qed.

Lemma C10_other_selectors_witness :
  7 <> IMX_TRIP_PASSIVE /\
  tmu_get_trend (tmu_sample false 0 90000) 7 THERMAL_TREND_STABLE
    = tmu_get_trend (tmu_sample false 0 90000) IMX_TRIP_CRITICAL
        THERMAL_TREND_STABLE /\
  tmu_set_trip_temp (tmu_sample false 0 90000) 7 1234
    = (0, tmu_sample false 0 90000).
Proof.
  assert (Hp : 7 <> IMX_TRIP_PASSIVE) by discriminate.
  destruct (C10_other_selectors (tmu_sample false 0 90000) 7
              THERMAL_TREND_STABLE 1234 Hp) as (Htrend & _ & Hset).
  split; [exact Hp | split; [exact Htrend|]].
  apply Hset. discriminate.
Defined.

(* ===================================================================== *)
(** ** Calibration failures during initialization (7) *)

(** C7 as stated fails on the log: a fuse byte of zero is absorbed (status
    0, uncalibrated mode), but besides the warning the probe function logs
    a message at error level. *)
Lemma C7_zero_fuse_logs_at_error_level :
  let res := imx8mm_tmu_probe (platform_ok true 0x8000)
               (machine_reg (0x8000 + OCOTP_TMU_CALIB) 0) in
  status res = 0 /\
  option_map calibration_of (instance_of (output res)) = Some Uncalibrated /\
  count (is_log KERN_ERR) (trace (final res)) = 1%nat /\
  In (EvLog KERN_ERR "invalid sensor calibration data" [])
     (trace (final res)).
Proof.
  cbv zeta. vm_compute. repeat split.
  right. right. right. left. reflexivity.
Qed.

(** C7, amended.  Once the probe function reaches its calibration part it
    returns 0, whatever happens there.  When the fuse block is not found,
    cannot be mapped, or holds a zero byte, the instance is left in
    uncalibrated mode and the last thing logged is the warning that the
    hardware-calibrated value is used; before it comes a warning in the
    first two cases and the error-level message "invalid sensor
    calibration data" in the third. *)
Theorem C7_unusable_fuse_absorbed pdev m :
  preamble_ok pdev = true ->
  let m0 := machine_after_enable pdev m in
  let tmu0 := tmu_before_calibration pdev in
  let base := of_iomap_ocotp pdev in
  let res := imx8mm_tmu_probe pdev m in
  status res = 0 /\
  (of_find_compatible_node pdev = false ->
     output res = DrvInstance (set_do_calib false tmu0) /\
     trace (final res) =
       log_hw_calibrated
         :: EvLog KERN_WARNING "failed to find ocotp node" []
         :: trace m0) /\
  (of_find_compatible_node pdev = true -> base = 0 ->
     output res = DrvInstance (set_do_calib false tmu0) /\
     trace (final res) =
       log_hw_calibrated :: EvOfNodePut
         :: EvLog KERN_WARNING "failed to map ocotp" []
         :: trace m0) /\
  (of_find_compatible_node pdev = true -> base <> 0 -> fuse8 pdev m0 = 0 ->
     output res = DrvInstance (set_do_calib false tmu0) /\
     trace (final res) =
       log_hw_calibrated :: EvOfNodePut :: EvIounmap base
         :: EvLog KERN_ERR "invalid sensor calibration data" []
         :: EvReadl (base + OCOTP_TMU_CALIB) :: trace m0) /\
  do_calib (set_do_calib false tmu0) = false.
Proof.
  intros Hpre. cbv zeta.
  rewrite probe_reaches_calibration by exact Hpre.
  set (tmu0 := tmu_before_calibration pdev).
  set (m0 := machine_after_enable pdev m).
  pose proof (probe_calibration_cases pdev tmu0 m0) as H. cbv zeta in H.
  split; [|split; [|split; [|split]]].
  - destruct (probe_calibration_succeeds pdev tmu0 m0) as [tmu' E].
    exact (f_equal fst E).
  - intros Hnode. rewrite Hnode in H. cbn [negb] in H.
    rewrite H. split; reflexivity.
  - intros Hnode Hmap. rewrite Hnode, Hmap in H. cbn [negb Z.eqb] in H.
    rewrite H. split; reflexivity.
  - intros Hnode Hmap Hfuse. apply Z.eqb_neq in Hmap.
    rewrite Hnode, Hmap, Hfuse in H. cbn [negb Z.eqb] in H.
    rewrite H. split; reflexivity.
  - reflexivity.
Qed.

Lemma C7_unusable_fuse_absorbed_witness :
  let res := imx8mm_tmu_probe (platform_ok false 0) (machine_const 0) in
  preamble_ok (platform_ok false 0) = true /\
  status res = 0 /\
  option_map calibration_of (instance_of (output res)) = Some Uncalibrated.
Proof.
  cbv zeta.
  destruct (C7_unusable_fuse_absorbed (platform_ok false 0) (machine_const 0)
              eq_refl) as (Hstatus & Hmissing & _).
  destruct (Hmissing eq_refl) as [Hout _].
  split; [reflexivity | split; [exact Hstatus|]].
  rewrite Hout. reflexivity.
Defined.

(* ===================================================================== *)
(** ** Further properties of [tmu_get_temp] *)

(** X1.  When [tmu_get_temp] fails with [-EAGAIN] it leaves [*temp] as it
    was; when it succeeds, what it stores does not depend on the previous
    content of [*temp].  One of the two always happens. *)
Theorem get_temp_output_on_failure_and_success tmu temp m :
  (status (tmu_get_temp tmu temp m) = - EAGAIN /\
   output (tmu_get_temp tmu temp m) = temp)
  \/
  (status (tmu_get_temp tmu temp m) = 0 /\
   forall temp', fst (tmu_get_temp tmu temp' m) = fst (tmu_get_temp tmu temp m)).
Proof.
  unfold status, output.
  assert (E : forall t, tmu_get_temp tmu t m =
    let a1 := attempt tmu m in
    if fst a1 <? TEMP_LOW_LIMIT then
      let a2 := attempt tmu (record (EvMsleep 10) (snd a1)) in
      if fst a2 <? TEMP_LOW_LIMIT then ((- EAGAIN, t), snd a2)
      else ((0, Int.s32 (Int.umul (fst a2) 1000)), snd a2)
    else ((0, Int.s32 (Int.umul (fst a1) 1000)), snd a1))
    by (intros t; apply tmu_get_temp_attempts).
  cbv zeta in E.
  destruct (fst (attempt tmu m) <? TEMP_LOW_LIMIT) eqn:E1.
  - destruct (fst (attempt tmu (record (EvMsleep 10) (snd (attempt tmu m))))
              <? TEMP_LOW_LIMIT) eqn:E2.
    + left. rewrite E. split; reflexivity.
    + right. split; [rewrite E; reflexivity|].
      intros temp'. rewrite !E. reflexivity.
  - right. split; [rewrite E; reflexivity|].
    intros temp'. rewrite !E. reflexivity.
Qed.

(** X2.  [tmu_get_temp] only samples: all it does to the machine is read
    the immediate-temperature register and the raw sensor register of its
    own window and sleep for 10 ms.  It writes no register, logs nothing
    and unmaps nothing. *)
Theorem get_temp_only_samples tmu temp m :
  exists evs,
    trace (final (tmu_get_temp tmu temp m)) = evs ++ trace m /\
    forallb (is_sampling_event tmu) evs = true /\
    bus (final (tmu_get_temp tmu temp m)) = bus m.
Proof.
  unfold final. rewrite tmu_get_temp_attempts. cbv zeta.
  set (imm := tmu_base tmu + TRITSR). set (raw := tmu_base tmu + TSCR).
  assert (Himm : is_sampling_event tmu (EvReadl imm) = true).
  { cbn. subst imm. rewrite Z.eqb_refl. reflexivity. }
  assert (Hraw : is_sampling_event tmu (EvReadl raw) = true).
  { cbn. subst raw. rewrite Z.eqb_refl. apply orb_true_r. }
  destruct (do_calib tmu) eqn:Hcal.
  - rewrite !attempt_on by exact Hcal. cbn [fst snd]. fold imm raw.
    repeat match goal with |- context [if ?c then _ else _] =>
      destruct c end; cbn [snd record trace bus].
    + exists [EvReadl raw; EvReadl imm; EvMsleep 10; EvReadl raw; EvReadl imm].
      split; [reflexivity|]. cbn [forallb]. rewrite Himm, Hraw.
      split; reflexivity.
    + exists [EvReadl raw; EvReadl imm; EvMsleep 10; EvReadl raw; EvReadl imm].
      split; [reflexivity|]. cbn [forallb]. rewrite Himm, Hraw.
      split; reflexivity.
    + exists [EvReadl raw; EvReadl imm].
      split; [reflexivity|]. cbn [forallb]. rewrite Himm, Hraw.
      split; reflexivity.
  - rewrite !attempt_off by exact Hcal. cbn [fst snd]. fold imm.
    repeat match goal with |- context [if ?c then _ else _] =>
      destruct c end; cbn [snd record trace bus].
    + exists [EvReadl imm; EvMsleep 10; EvReadl imm].
      split; [reflexivity|]. cbn [forallb]. rewrite Himm.
      split; reflexivity.
    + exists [EvReadl imm; EvMsleep 10; EvReadl imm].
      split; [reflexivity|]. cbn [forallb]. rewrite Himm.
      split; reflexivity.
    + exists [EvReadl imm].
      split; [reflexivity|]. cbn [forallb]. rewrite Himm.
      split; reflexivity.
Qed.

(** X3.  In calibrated mode with an offset [c] between 1 and 255, the
    retry is taken exactly when the calibrated value [d = r - c + 25] of
    the first raw reading lies in [0, 9].  Outside that window the function
    returns at once with [d * 1000]: in particular a raw reading with
    [r + 25 < c] is reported as a negative temperature, without delay. *)
Theorem get_temp_calibrated_retry_window tmu temp m :
  do_calib tmu = true ->
  1 <= fuse_calib_val tmu <= 255 ->
  let m1 := record (EvReadl (tmu_base tmu + TRITSR)) m in
  let d := reg8 tmu TSCR m1 - fuse_calib_val tmu + 25 in
  let res := tmu_get_temp tmu temp m in
  (0 <= d < 10 <->
     count is_msleep (trace (final res)) = S (count is_msleep (trace m))) /\
  (~ 0 <= d < 10 ->
     res = ((0, d * 1000), record (EvReadl (tmu_base tmu + TSCR)) m1)).
Proof.
  intros Hcal Hc. cbv zeta. unfold final.
  rewrite tmu_get_temp_attempts. cbv zeta.
  pose proof (attempt_no_msleep tmu m) as Hs1.
  pose proof (attempt_no_msleep tmu
                (record (EvMsleep 10) (snd (attempt tmu m)))) as Hs2.
  cbn [record trace] in Hs2. rewrite count_cons in Hs2.
  cbn [is_msleep] in Hs2. rewrite Hs1 in Hs2.
  rewrite (attempt_on tmu m Hcal) in *. cbn [fst snd] in *.
  set (m1 := record (EvReadl (tmu_base tmu + TRITSR)) m) in *.
  pose proof (reg8_range tmu TSCR m1) as Hr.
  set (d := reg8 tmu TSCR m1 - fuse_calib_val tmu + 25) in *.
  assert (Hscale : Int.s32 (Int.umul (Int.u32 d) 1000) = d * 1000).
  { apply IntFacts.s32_umul_u32.
    unfold Int.INT_MIN, Int.INT_MAX. rewrite IntFacts.half_modulus_eq.
    subst d. lia. }
  unfold TEMP_LOW_LIMIT.
  destruct (Z_lt_dec d 0) as [Hneg|Hpos].
  - rewrite (IntFacts.u32_wrap_neg d)
      by (rewrite IntFacts.modulus_eq; subst d; lia).
    rewrite IntFacts.modulus_eq.
    destruct (d + 4294967296 <? 10) eqn:E; [apply Z.ltb_lt in E; lia|].
    cbn [snd]. rewrite Hs1.
    split; [split; intros; lia|]. intros _.
    rewrite <- Hscale.
    rewrite (IntFacts.u32_wrap_neg d)
      by (rewrite IntFacts.modulus_eq; subst d; lia).
    rewrite IntFacts.modulus_eq. reflexivity.
  - rewrite (IntFacts.u32_small d) in *
      by (rewrite IntFacts.modulus_eq; subst d; lia).
    destruct (d <? 10) eqn:E.
    + apply Z.ltb_lt in E. split; [|intros H; exfalso; apply H; lia].
      split; [intros _|intros _; lia].
      match goal with |- context [if ?c then _ else _] => destruct c end;
        cbn [snd]; rewrite Hs2; lia.
    + apply Z.ltb_ge in E.
      cbn [snd]. rewrite Hs1.
      split; [split; intros; lia|]. intros _.
      rewrite Hscale. reflexivity.
Qed.

Lemma get_temp_calibrated_retry_window_witness :
  let tmu := tmu_sample true 100 0 in
  do_calib tmu = true /\
  1 <= fuse_calib_val tmu <= 255 /\
  fst (tmu_get_temp tmu 0 (machine_const 0)) = (0, (0 - 100 + 25) * 1000).
Proof.
  cbv zeta.
  assert (Hc : 1 <= fuse_calib_val (tmu_sample true 100 0) <= 255)
    by (vm_compute; split; discriminate).
  split; [reflexivity | split; [exact Hc|]].
  destruct (get_temp_calibrated_retry_window (tmu_sample true 100 0) 0
              (machine_const 0) eq_refl Hc) as [_ Hout].
  rewrite Hout; [reflexivity|].
  vm_compute. intros [H _]. apply H. reflexivity.
Defined.

(** Two machines with the same history whose raw sensor register answers
    alike give the same calibrated attempt. *)
Lemma attempt_on_agree tmu m m' :
  do_calib tmu = true ->
  trace m = trace m' ->
  (forall h, bus m h (tmu_base tmu + TSCR) = bus m' h (tmu_base tmu + TSCR)) ->
  fst (attempt tmu m) = fst (attempt tmu m') /\
  trace (snd (attempt tmu m)) = trace (snd (attempt tmu m')) /\
  bus (snd (attempt tmu m)) = bus m /\
  bus (snd (attempt tmu m')) = bus m'.
Proof.
  intros Hcal Ht Hb. rewrite !attempt_on by exact Hcal.
  cbn [fst snd record trace bus]. unfold reg8. cbn [record trace bus].
  rewrite Ht, Hb. repeat split.
Qed.

(** X4.  In calibrated mode the immediate-temperature register is read
    but its value is discarded: two machines that differ only in what that
    register (or any register other than the raw sensor register) answers
    give the same status, the same temperature and the same trace. *)
Theorem get_temp_calibrated_ignores_immediate tmu temp m m' :
  do_calib tmu = true ->
  trace m = trace m' ->
  (forall h, bus m h (tmu_base tmu + TSCR) = bus m' h (tmu_base tmu + TSCR)) ->
  fst (tmu_get_temp tmu temp m) = fst (tmu_get_temp tmu temp m') /\
  trace (final (tmu_get_temp tmu temp m)) =
    trace (final (tmu_get_temp tmu temp m')).
Proof.
  intros Hcal Ht Hb. unfold final. rewrite !tmu_get_temp_attempts. cbv zeta.
  destruct (attempt_on_agree tmu m m' Hcal Ht Hb) as (Hv1 & Ht1 & Hb1 & Hb1').
  assert (H2 : fst (attempt tmu (record (EvMsleep 10) (snd (attempt tmu m)))) =
               fst (attempt tmu (record (EvMsleep 10) (snd (attempt tmu m')))) /\
               trace (snd (attempt tmu
                        (record (EvMsleep 10) (snd (attempt tmu m))))) =
               trace (snd (attempt tmu
                        (record (EvMsleep 10) (snd (attempt tmu m')))))).
  { destruct (attempt_on_agree tmu
                (record (EvMsleep 10) (snd (attempt tmu m)))
                (record (EvMsleep 10) (snd (attempt tmu m'))) Hcal)
      as (Hv2 & Ht2 & _).
    - cbn [record trace]. rewrite Ht1. reflexivity.
    - intros h. cbn [record bus]. rewrite Hb1, Hb1'. apply Hb.
    - split; assumption. }
  destruct H2 as [Hv2 Ht2].
  rewrite <- Hv1.
  destruct (fst (attempt tmu m) <? TEMP_LOW_LIMIT).
  - rewrite <- Hv2.
    destruct (fst (attempt tmu (record (EvMsleep 10) (snd (attempt tmu m))))
              <? TEMP_LOW_LIMIT); cbn [fst snd]; split;
      [reflexivity | exact Ht2 | reflexivity | exact Ht2].
  - cbn [fst snd]. split; [reflexivity | exact Ht1].
Qed.

Lemma get_temp_calibrated_ignores_immediate_witness :
  let tmu := tmu_sample true 20 0 in
  fst (tmu_get_temp tmu 0 (machine_imm_raw 0x1000 5 30)) =
  fst (tmu_get_temp tmu 0 (machine_imm_raw 0x1000 200 30)).
Proof.
  cbv zeta.
  apply (get_temp_calibrated_ignores_immediate (tmu_sample true 20 0) 0
           (machine_imm_raw 0x1000 5 30) (machine_imm_raw 0x1000 200 30)
           eq_refl eq_refl).
  intros h. reflexivity.
Defined.

(* ===================================================================== *)
(** ** How the trip-point operations compose *)

(** X5.  Changing a trip temperature never changes what [tmu_get_temp]
    does: status, temperature and effects are those of the structure
    before the change, for every selector and value. *)
Theorem set_trip_temp_preserves_get_temp tmu trip v temp m :
  tmu_get_temp (snd (tmu_set_trip_temp tmu trip v)) temp m
    = tmu_get_temp tmu temp m.
Proof.
  unfold tmu_set_trip_temp.
  destruct (trip =? IMX_TRIP_CRITICAL), (trip =? IMX_TRIP_PASSIVE);
    reflexivity.
Qed.

(** X6.  A stored trip temperature takes effect at once: after
    [tmu_set_trip_temp] with a declared selector and a value [v] that is
    at least [INT_MIN + 10000], [tmu_get_trend] for that selector reports
    [THERMAL_TREND_RAISE_FULL] exactly when the zone temperature is at
    least [v - 10000]. *)
Theorem set_trip_temp_then_get_trend tmu tz trip v trend :
  tzd tmu = Some tz ->
  trip = IMX_TRIP_PASSIVE \/ trip = IMX_TRIP_CRITICAL ->
  Int.INT_MIN + 10000 <= v <= Int.INT_MAX ->
  (tmu_get_trend (snd (tmu_set_trip_temp tmu trip v)) trip trend
     = (0, THERMAL_TREND_RAISE_FULL) <-> temperature tz >= v - 10000) /\
  (tmu_get_trend (snd (tmu_set_trip_temp tmu trip v)) trip trend
     = (0, THERMAL_TREND_DROP_FULL) <-> temperature tz < v - 10000).
Proof.
  intros Hz Htrip Hv.
  assert (E : tmu_get_trend (snd (tmu_set_trip_temp tmu trip v)) trip trend =
              (0, if temperature tz >=? v - 10000
                  then THERMAL_TREND_RAISE_FULL else THERMAL_TREND_DROP_FULL)).
  { destruct Htrip; subst trip; cbn [tmu_set_trip_temp snd];
      (erewrite tmu_get_trend_registered by (cbn; exact Hz));
      cbn; unfold Int.ssub, IMX_TEMP_PASSIVE_COOL_DELTA;
      (rewrite IntFacts.s32_small
         by (revert Hv; unfold Int.INT_MIN, Int.INT_MAX;
             rewrite IntFacts.half_modulus_eq; lia));
      reflexivity. }
  rewrite E.
  destruct (temperature tz >=? v - 10000) eqn:C;
    rewrite Z.geb_leb in C;
    [apply Z.leb_le in C | apply Z.leb_gt in C];
    (split; split; intros H; try discriminate H; try reflexivity; lia).
Qed.

Lemma set_trip_temp_then_get_trend_witness :
  tmu_get_trend (snd (tmu_set_trip_temp (tmu_sample false 0 60000)
                        IMX_TRIP_PASSIVE 65000))
    IMX_TRIP_PASSIVE THERMAL_TREND_STABLE = (0, THERMAL_TREND_RAISE_FULL).
Proof.
  assert (R : Int.INT_MIN + 10000 <= 65000 <= Int.INT_MAX)
    by (vm_compute; split; discriminate).
  destruct (set_trip_temp_then_get_trend (tmu_sample false 0 60000)
              {| temperature := 60000; no_hwmon := false |}
              IMX_TRIP_PASSIVE 65000 THERMAL_TREND_STABLE
              eq_refl (or_introl eq_refl) R) as [[_ Hrise] _].
  apply Hrise. vm_compute. intros H. discriminate H.
Defined.

(** X7.  The two thresholds are independent: storing the passive trip
    temperature changes the trend for no selector other than
    [IMX_TRIP_PASSIVE], and storing the critical one does not change the
    trend for [IMX_TRIP_PASSIVE]. *)
Theorem set_trip_temp_other_trend_unchanged tmu v trend :
  (forall trip, trip <> IMX_TRIP_PASSIVE ->
     tmu_get_trend (snd (tmu_set_trip_temp tmu IMX_TRIP_PASSIVE v)) trip trend
       = tmu_get_trend tmu trip trend) /\
  tmu_get_trend (snd (tmu_set_trip_temp tmu IMX_TRIP_CRITICAL v))
    IMX_TRIP_PASSIVE trend
    = tmu_get_trend tmu IMX_TRIP_PASSIVE trend.
Proof.
  split.
  - intros trip Hp. apply Z.eqb_neq in Hp.
    unfold tmu_get_trend. cbn. rewrite Hp. reflexivity.
  - reflexivity.
Qed.

(** X8.  Stores to one threshold overwrite each other (the last one
    wins), for every selector; stores to the two different thresholds
    commute. *)
Theorem set_trip_temp_last_store_wins tmu trip a b :
  snd (tmu_set_trip_temp (snd (tmu_set_trip_temp tmu trip a)) trip b)
    = snd (tmu_set_trip_temp tmu trip b) /\
  snd (tmu_set_trip_temp (snd (tmu_set_trip_temp tmu IMX_TRIP_PASSIVE a))
         IMX_TRIP_CRITICAL b)
    = snd (tmu_set_trip_temp (snd (tmu_set_trip_temp tmu IMX_TRIP_CRITICAL b))
             IMX_TRIP_PASSIVE a).
Proof.
  split; [|reflexivity].
  unfold tmu_set_trip_temp.
  destruct (trip =? IMX_TRIP_CRITICAL), (trip =? IMX_TRIP_PASSIVE);
    reflexivity.
Qed.

(* ===================================================================== *)
(** ** Further properties of [tmu_get_trend] *)

(** X9.  [tmu_get_trend] never fails, and with the zone registered its
    answer is one of the two full trends and is monotone in the zone
    temperature, whatever the thresholds are: if it reports
    [THERMAL_TREND_RAISE_FULL] at one temperature it does so at every
    higher one. *)
Theorem get_trend_monotone tmu trip trend lo hi :
  temperature lo <= temperature hi ->
  fst (tmu_get_trend (set_tzd (Some lo) tmu) trip trend) = 0 /\
  (snd (tmu_get_trend (set_tzd (Some lo) tmu) trip trend)
     = THERMAL_TREND_RAISE_FULL \/
   snd (tmu_get_trend (set_tzd (Some lo) tmu) trip trend)
     = THERMAL_TREND_DROP_FULL) /\
  (snd (tmu_get_trend (set_tzd (Some lo) tmu) trip trend)
     = THERMAL_TREND_RAISE_FULL ->
   snd (tmu_get_trend (set_tzd (Some hi) tmu) trip trend)
     = THERMAL_TREND_RAISE_FULL).
Proof.
  intros Hle.
  rewrite (tmu_get_trend_registered (set_tzd (Some lo) tmu) lo trip trend
             eq_refl).
  rewrite (tmu_get_trend_registered (set_tzd (Some hi) tmu) hi trip trend
             eq_refl).
  cbn [fst snd set_tzd temp_passive temp_critical].
  set (limit := Int.ssub _ _).
  destruct (temperature lo >=? limit) eqn:E1.
  - destruct (temperature hi >=? limit) eqn:E2.
    + repeat split. left. reflexivity.
    + rewrite Z.geb_leb in E1, E2.
      apply Z.leb_le in E1. apply Z.leb_gt in E2. lia.
  - repeat split; [right; reflexivity | discriminate].
Qed.

Lemma get_trend_monotone_witness :
  snd (tmu_get_trend
         (set_tzd (Some {| temperature := 80000; no_hwmon := false |})
            (tmu_sample false 0 0)) IMX_TRIP_PASSIVE THERMAL_TREND_STABLE)
    = THERMAL_TREND_RAISE_FULL.
Proof.
  destruct (get_trend_monotone (tmu_sample false 0 0) IMX_TRIP_PASSIVE
              THERMAL_TREND_STABLE
              {| temperature := 75000; no_hwmon := false |}
              {| temperature := 80000; no_hwmon := false |})
    as (_ & _ & Hmono).
  - vm_compute. discriminate.
  - apply Hmono. reflexivity.
Defined.

(** X10.  For a selected threshold below [INT_MIN + 10000] the subtraction
    of the hysteresis wraps, and [tmu_get_trend] reports
    [THERMAL_TREND_RAISE_FULL] exactly when the zone temperature is at
    least [threshold - 10000 + 2^32]. *)
Theorem get_trend_wrapped_threshold tmu tz trip trend :
  tzd tmu = Some tz ->
  let threshold :=
    if trip =? IMX_TRIP_PASSIVE then temp_passive tmu else temp_critical tmu in
  Int.INT_MIN <= threshold < Int.INT_MIN + 10000 ->
  (tmu_get_trend tmu trip trend = (0, THERMAL_TREND_RAISE_FULL)
     <-> temperature tz >= threshold - 10000 + 2 ^ 32) /\
  (tmu_get_trend tmu trip trend = (0, THERMAL_TREND_DROP_FULL)
     <-> temperature tz < threshold - 10000 + 2 ^ 32).
Proof.
  intros Hz. cbv zeta. intros Hrange.
  rewrite (tmu_get_trend_registered tmu tz trip trend Hz).
  set (threshold := if trip =? IMX_TRIP_PASSIVE then temp_passive tmu
                    else temp_critical tmu) in *.
  assert (W : Int.ssub threshold IMX_TEMP_PASSIVE_COOL_DELTA
              = threshold - 10000 + 2 ^ 32).
  { unfold Int.ssub, Int.s32, IMX_TEMP_PASSIVE_COOL_DELTA.
    revert Hrange. unfold Int.INT_MIN.
    rewrite IntFacts.modulus_eq, IntFacts.half_modulus_eq. intros Hrange.
    replace (threshold - 10000 + 2147483648)
      with (threshold - 10000 + 2147483648 + 4294967296
            + (-1) * 4294967296) by lia.
    rewrite Z.mod_add by lia. rewrite Z.mod_small by lia. lia. }
  rewrite W.
  destruct (temperature tz >=? threshold - 10000 + 2 ^ 32) eqn:C;
    rewrite Z.geb_leb in C;
    [apply Z.leb_le in C | apply Z.leb_gt in C];
    (split; split; intros H; try discriminate H; try reflexivity; lia).
Qed.

Lemma get_trend_wrapped_threshold_witness :
  tmu_get_trend (set_temp_passive Int.INT_MIN (tmu_sample false 0 Int.INT_MAX))
    IMX_TRIP_PASSIVE THERMAL_TREND_STABLE = (0, THERMAL_TREND_RAISE_FULL).
Proof.
  assert (R : Int.INT_MIN <= Int.INT_MIN < Int.INT_MIN + 10000)
    by (vm_compute; split; [discriminate | reflexivity]).
  destruct (get_trend_wrapped_threshold
              (set_temp_passive Int.INT_MIN (tmu_sample false 0 Int.INT_MAX))
              {| temperature := Int.INT_MAX; no_hwmon := false |}
              IMX_TRIP_PASSIVE THERMAL_TREND_STABLE eq_refl R)
    as [[_ Hrise] _].
  apply Hrise. vm_compute. intros H. discriminate H.
Defined.

(* ===================================================================== *)
(** ** The enable bit *)

Lemma ter_en_bit i : Z.testbit TER_EN i = (31 =? i).
Proof.
  change TER_EN with (2 ^ 31). apply Z.pow2_bits_eqb. lia.
Qed.

Lemma u32_bits_high r i :
  0 <= r < 2 ^ 32 -> 32 <= i -> Z.testbit r i = false.
Proof.
  intros Hr Hi. rewrite <- (Z.mod_small r (2 ^ 32)) by exact Hr.
  apply Z.mod_pow2_bits_high. lia.
Qed.

(** [val |= TER_EN] on a [u32]. *)
Lemma set_enable_bit r :
  0 <= r < 2 ^ 32 ->
  Z.testbit (Z.lor r TER_EN) 31 = true /\
  (forall i, i <> 31 -> Z.testbit (Z.lor r TER_EN) i = Z.testbit r i) /\
  0 <= Z.lor r TER_EN < 2 ^ 32.
Proof.
  intros Hr. split; [|split].
  - rewrite Z.lor_spec, ter_en_bit. apply orb_true_r.
  - intros i Hi. rewrite Z.lor_spec, ter_en_bit.
    replace (31 =? i) with false by (symmetry; apply Z.eqb_neq; lia).
    apply orb_false_r.
  - assert (E : Z.lor r TER_EN mod 2 ^ 32 = Z.lor r TER_EN).
    { apply Z.bits_inj'. intros i Hi.
      destruct (Z_lt_dec i 32) as [Hlt|Hge].
      - apply Z.mod_pow2_bits_low. exact Hlt.
      - rewrite Z.mod_pow2_bits_high by lia.
        rewrite Z.lor_spec, ter_en_bit, (u32_bits_high r i Hr) by lia.
        replace (31 =? i) with false by (symmetry; apply Z.eqb_neq; lia).
        reflexivity. }
    rewrite <- E. apply Z.mod_pos_bound. lia.
Qed.

(** [val &= ~TER_EN] on a [u32]. *)
Lemma clear_enable_bit r :
  0 <= r < 2 ^ 32 ->
  Z.land r (Z.lnot TER_EN) = r mod 2 ^ 31.
Proof.
  intros Hr. apply Z.bits_inj'. intros i Hi.
  rewrite Z.land_spec, Z.lnot_spec, ter_en_bit by exact Hi.
  destruct (Z_lt_dec i 31) as [Hlt|Hge].
  - rewrite Z.mod_pow2_bits_low by exact Hlt.
    replace (31 =? i) with false by (symmetry; apply Z.eqb_neq; lia).
    apply andb_true_r.
  - rewrite Z.mod_pow2_bits_high by lia.
    destruct (Z.eq_dec i 31) as [->|Hne].
    + apply andb_false_r.
    + rewrite (u32_bits_high r i Hr) by lia. reflexivity.
Qed.

Lemma clear_enable_bit_spec r :
  0 <= r < 2 ^ 32 ->
  let w := Int.u32 (Z.land r (Z.lnot TER_EN)) in
  w = Z.land r (Z.lnot TER_EN) /\
  Z.testbit w 31 = false /\
  (forall i, i <> 31 -> Z.testbit w i = Z.testbit r i) /\
  0 <= w < 2 ^ 31.
Proof.
  intros Hr. cbv zeta.
  pose proof (Z.mod_pos_bound r (2 ^ 31) ltac:(lia)) as Hm.
  assert (E : Int.u32 (Z.land r (Z.lnot TER_EN)) = Z.land r (Z.lnot TER_EN)).
  { rewrite clear_enable_bit by exact Hr. apply IntFacts.u32_small.
    rewrite IntFacts.modulus_eq. lia. }
  rewrite E. split; [reflexivity|split; [|split]].
  - rewrite Z.land_spec, Z.lnot_spec, ter_en_bit by lia. apply andb_false_r.
  - intros i Hi. destruct (Z_lt_dec i 0) as [Hneg|Hpos].
    + rewrite !Z.testbit_neg_r by exact Hneg. reflexivity.
    + rewrite Z.land_spec, Z.lnot_spec, ter_en_bit by lia.
      replace (31 =? i) with false by (symmetry; apply Z.eqb_neq; lia).
      apply andb_true_r.
  - rewrite clear_enable_bit by exact Hr. exact Hm.
Qed.

(** Setting and then clearing the bit gives back a word that had it
    clear. *)
Lemma set_then_clear_enable_bit r :
  0 <= r < 2 ^ 32 ->
  Z.testbit r 31 = false ->
  Z.land (Z.lor r TER_EN) (Z.lnot TER_EN) = r.
Proof.
  intros Hr Hbit. apply Z.bits_inj'. intros i Hi.
  rewrite Z.land_spec, Z.lnot_spec, Z.lor_spec, ter_en_bit by exact Hi.
  destruct (Z.eq_dec i 31) as [->|Hne].
  - rewrite Hbit. reflexivity.
  - replace (31 =? i) with false by (symmetry; apply Z.eqb_neq; lia).
    rewrite orb_false_r. apply andb_true_r.
Qed.

Lemma u32_range_pow z : 0 <= Int.u32 z < 2 ^ 32.
Proof. apply IntFacts.u32_range. Qed.

(* ===================================================================== *)
(** ** Failure paths of the probe function *)

(** A failure before the register window is mapped. *)
Lemma probe_fails_unmapped pdev m :
  window_mapped pdev = false ->
  imx8mm_tmu_probe pdev m =
    if negb (of_node pdev) then
      ((- ENODEV, DrvUnset),
       record (EvLog KERN_ERR "device node NOT found" []) m)
    else if negb (devm_kzalloc pdev) then ((- ENOMEM, DrvUnset), m)
    else ((- ENODEV, DrvStale),
          record (EvLog KERN_ERR "Failed to map the memory" []) m).
Proof.
  unfold window_mapped, imx8mm_tmu_probe. intros H.
  destruct (of_node pdev); [|reflexivity].
  destruct (devm_kzalloc pdev); [|reflexivity].
  cbn [andb negb tmu_zeroed tmu_base] in *.
  apply negb_false_iff in H. rewrite H. reflexivity.
Qed.

(** A failure after the register window is mapped: the status is the
    code of the step that failed first, and control reaches label [err]. *)
Lemma probe_fails_mapped pdev m :
  window_mapped pdev = true ->
  preamble_ok pdev = false ->
  exists code m',
    imx8mm_tmu_probe pdev m =
      ((code, DrvStale), record (EvIounmap (of_iomap_tmu pdev)) m') /\
    bus m' = bus m /\
    (err_ptrs_valid pdev = true -> code <> 0).
Proof.
  unfold window_mapped, preamble_ok, err_ptrs_valid, imx8mm_tmu_probe.
  intros Hw Hp.
  destruct (of_node pdev); [|discriminate].
  destruct (devm_kzalloc pdev); [|discriminate].
  cbn [andb negb tmu_zeroed tmu_base] in *.
  rewrite Hw in Hp. apply negb_true_iff in Hw. rewrite Hw.
  assert (Hptr : forall e, (- MAX_ERRNO <=? e) && (e <=? -1) = true -> e <> 0).
  { intros e He. apply andb_prop in He. destruct He as [_ He].
    apply Z.leb_le in He. lia. }
  destruct (devm_clk_get pdev) as [c|e].
  2:{ eexists e, _. split; [reflexivity|]. split; [reflexivity|].
      intros V. cbn [err_ptr_valid] in V.
      apply andb_prop in V. destruct V as [V _].
      apply andb_prop in V. destruct V as [V _].
      apply Hptr. exact V. }
  destruct (devm_thermal_zone_of_sensor_register pdev) as [tz|e].
  2:{ eexists e, _. split; [reflexivity|]. split; [reflexivity|].
      intros V. cbn [err_ptr_valid andb] in V.
      apply andb_prop in V. destruct V as [V _].
      apply Hptr. exact V. }
  destruct (devfreq_cooling_register pdev) as [cd|e].
  2:{ exists e.
      destruct (negb (e =? - EPROBE_DEFER));
        (eexists; split; [reflexivity|]; split; [reflexivity|]);
        intros V; cbn [err_ptr_valid andb] in V; apply Hptr; exact V. }
  cbn [is_ptr andb] in Hp.
  destruct (thermal_zone_bind_cooling_device pdev =? 0) eqn:E1.
  2:{ apply Z.eqb_neq in E1. cbn [negb].
      eexists _, _. split; [reflexivity|]. split; [reflexivity|].
      intros _. exact E1. }
  destruct (clk_prepare_enable pdev =? 0) eqn:E2.
  2:{ apply Z.eqb_neq in E2. cbn [negb].
      eexists _, _. split; [reflexivity|]. split; [reflexivity|].
      intros _. exact E2. }
  cbn [andb negb] in *.
  destruct (thermal_add_hwmon_sysfs pdev =? 0) eqn:E3; [discriminate|].
  apply Z.eqb_neq in E3. cbn [negb].
  eexists _, _. split; [reflexivity|]. split; [reflexivity|].
  intros _. exact E3.
Qed.

Lemma window_mapped_of_preamble pdev :
  preamble_ok pdev = true -> window_mapped pdev = true.
Proof.
  unfold preamble_ok, window_mapped. intros H.
  repeat (apply andb_prop in H; destruct H as [H ?]).
  rewrite H.
  repeat match goal with E : _ = true |- _ => rewrite E; clear E end.
  reflexivity.
Qed.

(** The driver data a failing probe leaves: unset before the allocation,
    stale after it. *)
Lemma probe_failure_drvdata pdev m :
  preamble_ok pdev = false ->
  output (imx8mm_tmu_probe pdev m) =
    if of_node pdev && devm_kzalloc pdev then DrvStale else DrvUnset.
Proof.
  intros Hp. destruct (window_mapped pdev) eqn:Hw.
  - destruct (probe_fails_mapped pdev m Hw Hp) as (code & m' & E & _).
    rewrite E. unfold window_mapped in Hw.
    apply andb_prop in Hw. destruct Hw as [Hw _]. rewrite Hw. reflexivity.
  - rewrite (probe_fails_unmapped pdev m Hw).
    destruct (of_node pdev); [|reflexivity].
    destruct (devm_kzalloc pdev); reflexivity.
Qed.

(** X11.  The probe function returns 0 and leaves an instance when every
    step before the calibration part succeeds; when one of them fails it
    leaves no instance and (the error pointers of the platform being well
    formed) returns a status other than 0.  The driver data of the device
    is set as soon as the structure is allocated and is never cleared by
    the function: after the call it is unset only if the device node is
    missing or the allocation failed, also when the function fails. *)
Theorem probe_succeeds_iff_preamble pdev m :
  (preamble_ok pdev = true ->
     exists tmu, fst (imx8mm_tmu_probe pdev m) = (0, DrvInstance tmu)) /\
  (preamble_ok pdev = false ->
     instance_of (output (imx8mm_tmu_probe pdev m)) = None /\
     (err_ptrs_valid pdev = true -> status (imx8mm_tmu_probe pdev m) <> 0)) /\
  (output (imx8mm_tmu_probe pdev m) = DrvUnset
     <-> of_node pdev && devm_kzalloc pdev = false).
Proof.
  split; [|split].
  - intros Hp. rewrite probe_reaches_calibration by exact Hp.
    apply probe_calibration_succeeds.
  - intros Hp. split.
    + rewrite (probe_failure_drvdata pdev m Hp).
      destruct (of_node pdev && devm_kzalloc pdev); reflexivity.
    + destruct (window_mapped pdev) eqn:Hw.
      * destruct (probe_fails_mapped pdev m Hw Hp)
          as (code & m' & E & _ & Hc).
        rewrite E. exact Hc.
      * rewrite (probe_fails_unmapped pdev m Hw).
        destruct (negb (of_node pdev));
          [|destruct (negb (devm_kzalloc pdev))];
          intros _; discriminate.
  - destruct (preamble_ok pdev) eqn:Hp.
    + destruct (probe_calibration_succeeds pdev (tmu_before_calibration pdev)
                  (machine_after_enable pdev m)) as [tmu E].
      rewrite <- probe_reaches_calibration in E by exact Hp.
      assert (Ho : output (imx8mm_tmu_probe pdev m) = DrvInstance tmu)
        by exact (f_equal snd E).
      rewrite Ho.
      pose proof (window_mapped_of_preamble pdev Hp) as Hw.
      unfold window_mapped in Hw.
      apply andb_prop in Hw. destruct Hw as [Hw _]. rewrite Hw.
      split; discriminate.
    + rewrite (probe_failure_drvdata pdev m Hp).
      destruct (of_node pdev && devm_kzalloc pdev);
        split; try discriminate; reflexivity.
Qed.

(** X12.  When the device node is missing, the allocation fails or the
    register window cannot be mapped, the probe function returns
    [-ENODEV] or [-ENOMEM] without touching any register: all it does to
    the machine is log at most one error message (none for [-ENOMEM]).
    The driver data is unset in the first two cases; in the third it has
    already been set, and stays set. *)
Theorem probe_early_failure_touches_nothing pdev m :
  window_mapped pdev = false ->
  let res := imx8mm_tmu_probe pdev m in
  (status res = - ENODEV \/ status res = - ENOMEM) /\
  output res =
    (if of_node pdev && devm_kzalloc pdev then DrvStale else DrvUnset) /\
  bus (final res) = bus m /\
  exists evs,
    trace (final res) = evs ++ trace m /\
    forallb (is_log KERN_ERR) evs = true /\
    (List.length evs <= 1)%nat /\
    (status res = - ENOMEM -> evs = []).
Proof.
  intros Hw. cbv zeta. rewrite (probe_fails_unmapped pdev m Hw).
  destruct (of_node pdev); [destruct (devm_kzalloc pdev)|];
    unfold status, output, final; cbn [fst snd record trace bus negb andb].
  - split; [left; reflexivity|]. split; [reflexivity|].
    split; [reflexivity|].
    exists [EvLog KERN_ERR "Failed to map the memory" []].
    split; [reflexivity|]. split; [reflexivity|].
    split; [cbn; lia|]. intros H. discriminate H.
  - split; [right; reflexivity|]. split; [reflexivity|].
    split; [reflexivity|].
    exists []. split; [reflexivity|]. split; [reflexivity|].
    split; [cbn; lia | reflexivity].
  - split; [left; reflexivity|]. split; [reflexivity|].
    split; [reflexivity|].
    exists [EvLog KERN_ERR "device node NOT found" []].
    split; [reflexivity|]. split; [reflexivity|].
    split; [cbn; lia|]. intros H. discriminate H.
Qed.

(** The path on which the window cannot be mapped. *)
Lemma probe_early_failure_touches_nothing_witness :
  let pdev :=
    {| of_node := true; devm_kzalloc := true; of_iomap_tmu := 0;
       devm_clk_get := Ptr 0x3000;
       devm_thermal_zone_of_sensor_register :=
         Ptr {| temperature := 0; no_hwmon := true |};
       devfreq_cooling_register := Ptr 0x2000;
       thermal_zone_bind_cooling_device := 0;
       of_thermal_get_trip_points := (85000, 95000);
       clk_prepare_enable := 0;
       thermal_add_hwmon_sysfs := 0; of_find_compatible_node := false;
       of_iomap_ocotp := 0 |} in
  window_mapped pdev = false /\
  fst (imx8mm_tmu_probe pdev (machine_const 0)) = (- ENODEV, DrvStale) /\
  trace (final (imx8mm_tmu_probe pdev (machine_const 0)))
    = [EvLog KERN_ERR "Failed to map the memory" []].
Proof.
  cbv zeta. split; [reflexivity|].
  match goal with |- fst (imx8mm_tmu_probe ?p ?m) = _ /\ _ =>
    destruct (probe_early_failure_touches_nothing p m eq_refl)
      as (_ & Hout & _) end.
  split; [|reflexivity].
  apply injective_projections; [reflexivity | exact Hout].
Defined.

(** X13.  Once the register window is mapped, every failure of the probe
    function ends at label [err]: the unmapping of that window is the
    last thing it does, and the driver data is not cleared, so it still
    designates the structure whose window has just been unmapped. *)
Theorem probe_failure_unmaps_window pdev m :
  window_mapped pdev = true ->
  preamble_ok pdev = false ->
  hd_error (trace (final (imx8mm_tmu_probe pdev m)))
    = Some (EvIounmap (of_iomap_tmu pdev)) /\
  output (imx8mm_tmu_probe pdev m) = DrvStale.
Proof.
  intros Hw Hp.
  destruct (probe_fails_mapped pdev m Hw Hp) as (code & m' & E & _).
  rewrite E. split; reflexivity.
Qed.

Lemma probe_failure_unmaps_window_witness :
  let pdev := platform_with (ErrPtr (- ENOMEM)) 0 in
  window_mapped pdev = true /\ preamble_ok pdev = false /\
  hd_error (trace (final (imx8mm_tmu_probe pdev (machine_const 0))))
    = Some (EvIounmap 0x1000) /\
  output (imx8mm_tmu_probe pdev (machine_const 0)) = DrvStale.
Proof.
  cbv zeta. split; [reflexivity | split; [reflexivity|]].
  exact (probe_failure_unmaps_window (platform_with (ErrPtr (- ENOMEM)) 0)
           (machine_const 0) eq_refl eq_refl).
Defined.

Lemma tmu_before_calibration_fields pdev :
  preamble_ok pdev = true ->
  of_iomap_tmu pdev <> 0 /\
  exists c tz cd,
    devm_clk_get pdev = Ptr c /\
    devm_thermal_zone_of_sensor_register pdev = Ptr tz /\
    devfreq_cooling_register pdev = Ptr cd /\
    tmu_before_calibration pdev =
      {| tzd := Some (set_no_hwmon false tz); cdev := cd; clk := c;
         tmu_base := of_iomap_tmu pdev;
         enabled := false; do_calib := false;
         temp_passive := fst (of_thermal_get_trip_points pdev);
         temp_critical := snd (of_thermal_get_trip_points pdev);
         fuse_calib_val := 0 |}.
Proof.
  unfold preamble_ok, tmu_before_calibration. intros H.
  repeat (apply andb_prop in H; destruct H as [H ?]).
  split.
  - match goal with E : negb _ = true |- _ =>
      apply negb_true_iff in E; apply Z.eqb_neq in E; exact E end.
  - destruct (devm_clk_get pdev) as [c|]; [|discriminate].
    destruct (devm_thermal_zone_of_sensor_register pdev) as [tz|];
      [|discriminate].
    destruct (devfreq_cooling_register pdev) as [cd|]; [|discriminate].
    exists c, tz, cd. repeat split.
Qed.

(** The instance a probe leaves, field by field. *)
Lemma probe_instance_fields pdev m tmu :
  output (imx8mm_tmu_probe pdev m) = DrvInstance tmu ->
  preamble_ok pdev = true /\
  fst (imx8mm_tmu_probe pdev m) = (0, DrvInstance tmu) /\
  exists c tz cd v,
    devm_clk_get pdev = Ptr c /\
    devm_thermal_zone_of_sensor_register pdev = Ptr tz /\
    devfreq_cooling_register pdev = Ptr cd /\
    (v = 0 \/ 1 <= v <= 255) /\
    tmu =
      {| tzd := Some (set_no_hwmon false tz); cdev := cd; clk := c;
         tmu_base := of_iomap_tmu pdev;
         enabled := false; do_calib := negb (v =? 0);
         temp_passive := fst (of_thermal_get_trip_points pdev);
         temp_critical := snd (of_thermal_get_trip_points pdev);
         fuse_calib_val := v |}.
Proof.
  intros Hout.
  destruct (preamble_ok pdev) eqn:Hp.
  2:{ rewrite (probe_failure_drvdata pdev m Hp) in Hout.
      destruct (of_node pdev && devm_kzalloc pdev); discriminate Hout. }
  split; [reflexivity|].
  destruct (tmu_before_calibration_fields pdev Hp)
    as (_ & c & tz & cd & Hc & Htz & Hcd & E0).
  rewrite probe_reaches_calibration in * by exact Hp.
  pose proof (probe_calibration_cases pdev (tmu_before_calibration pdev)
                (machine_after_enable pdev m)) as H. cbv zeta in H.
  set (v := fuse8 pdev (machine_after_enable pdev m)) in *.
  assert (Hv : 0 <= v <= 255) by (apply IntFacts.land_mask_range).
  rewrite E0 in H, Hout |- *.
  destruct (negb (of_find_compatible_node pdev));
    [|destruct (of_iomap_ocotp pdev =? 0); [|destruct (v =? 0) eqn:Ev]];
    rewrite H in Hout |- *; unfold output in Hout; cbn [fst snd] in Hout;
    inversion Hout; (split; [reflexivity|]).
  1-3: exists c, tz, cd, 0; repeat split; try assumption; left; reflexivity.
  exists c, tz, cd, v. apply Z.eqb_neq in Ev.
  repeat split; try assumption; [right; lia|].
  cbn. replace (v =? 0) with false by (symmetry; apply Z.eqb_neq; exact Ev).
  reflexivity.
Qed.

(* ===================================================================== *)
(** ** The state a successful probe leaves *)

(** X14.  When every step before the calibration part succeeds, the probe
    function returns 0 and leaves an instance that is consistent: it
    holds the mapped window (not null), the registered zone with hwmon
    allowed, the clock and the cooling device obtained, the two trip
    temperatures in the order the thermal core supplies them (index 0
    passive, index 1 critical), and the [enabled] flag still false.  In
    calibrated mode the offset is between 1 and 255; in uncalibrated mode
    it is 0. *)
Theorem probe_success_state pdev m :
  preamble_ok pdev = true ->
  exists tmu,
    fst (imx8mm_tmu_probe pdev m) = (0, DrvInstance tmu) /\
    tmu_base tmu = of_iomap_tmu pdev /\ tmu_base tmu <> 0 /\
    devm_clk_get pdev = Ptr (clk tmu) /\
    devfreq_cooling_register pdev = Ptr (cdev tmu) /\
    (exists tz, devm_thermal_zone_of_sensor_register pdev = Ptr tz /\
                tzd tmu = Some (set_no_hwmon false tz)) /\
    temp_passive tmu = fst (of_thermal_get_trip_points pdev) /\
    temp_critical tmu = snd (of_thermal_get_trip_points pdev) /\
    enabled tmu = false /\
    (do_calib tmu = true -> 1 <= fuse_calib_val tmu <= 255) /\
    (do_calib tmu = false -> fuse_calib_val tmu = 0).
Proof.
  intros Hp.
  destruct (probe_calibration_succeeds pdev (tmu_before_calibration pdev)
              (machine_after_enable pdev m)) as [tmu E].
  rewrite <- probe_reaches_calibration in E by exact Hp.
  exists tmu. split; [exact E|].
  destruct (probe_instance_fields pdev m tmu (f_equal snd E))
    as (_ & _ & c & tz & cd & v & Hc & Htz & Hcd & Hv & Etmu).
  destruct (tmu_before_calibration_fields pdev Hp) as (Hbase & _).
  subst tmu. cbn.
  repeat split; try assumption; try reflexivity.
  - exists tz. split; [exact Htz | reflexivity].
  - destruct Hv as [->|Hv]; [discriminate | lia].
  - destruct Hv as [->|Hv]; [discriminate | lia].
  - destruct Hv as [->|Hv]; [reflexivity|].
    replace (v =? 0) with false by (symmetry; apply Z.eqb_neq; lia).
    discriminate.
Qed.

Lemma probe_success_state_witness :
  let res := imx8mm_tmu_probe (platform_ok true 0x8000)
               (machine_reg (0x8000 + OCOTP_TMU_CALIB) 20) in
  preamble_ok (platform_ok true 0x8000) = true /\
  exists tmu,
    fst res = (0, DrvInstance tmu) /\
    temp_passive tmu = 85000 /\ temp_critical tmu = 95000.
Proof.
  cbv zeta. split; [reflexivity|].
  destruct (probe_success_state (platform_ok true 0x8000)
              (machine_reg (0x8000 + OCOTP_TMU_CALIB) 20) eq_refl)
    as (tmu & E & _ & _ & _ & _ & _ & Hp & Hc & _).
  exists tmu. split; [exact E | split; [exact Hp | exact Hc]].
Defined.

(** X15.  A successful probe enables the monitor by one read-modify-write
    of [TER]: the word written is the word read with bit 31 set and every
    other bit unchanged, it is a [u32], and no other register is written
    afterwards. *)
Theorem probe_sets_enable_bit pdev m :
  preamble_ok pdev = true ->
  let ter := of_iomap_tmu pdev + TER in
  let r := Int.u32 (bus m (trace m) ter) in
  let w := Z.lor r TER_EN in
  (exists evs,
     trace (final (imx8mm_tmu_probe pdev m))
       = evs ++ EvWritel w ter :: EvReadl ter :: trace m /\
     forallb (fun e => negb (is_writel e)) evs = true) /\
  Z.testbit w 31 = true /\
  (forall i, i <> 31 -> Z.testbit w i = Z.testbit r i) /\
  0 <= w < 2 ^ 32.
Proof.
  intros Hp. cbv zeta. split; [|apply set_enable_bit; apply u32_range_pow].
  rewrite probe_reaches_calibration by exact Hp.
  pose proof (probe_calibration_cases pdev (tmu_before_calibration pdev)
                (machine_after_enable pdev m)) as H. cbv zeta in H.
  unfold final.
  set (base := of_iomap_ocotp pdev) in *.
  set (v := fuse8 pdev (machine_after_enable pdev m)) in *.
  destruct (negb (of_find_compatible_node pdev));
    [|destruct (base =? 0); [|destruct (v =? 0)]];
    rewrite H; cbn [snd trace machine_after_enable record].
  - exists [log_hw_calibrated;
            EvLog KERN_WARNING "failed to find ocotp node" []].
    split; reflexivity.
  - exists [log_hw_calibrated; EvOfNodePut;
            EvLog KERN_WARNING "failed to map ocotp" []].
    split; reflexivity.
  - exists [log_hw_calibrated; EvOfNodePut; EvIounmap base;
            EvLog KERN_ERR "invalid sensor calibration data" [];
            EvReadl (base + OCOTP_TMU_CALIB)].
    split; reflexivity.
  - exists [log_sw_calibrated v; EvOfNodePut; EvIounmap base;
            EvReadl (base + OCOTP_TMU_CALIB)].
    split; reflexivity.
Qed.

Lemma probe_sets_enable_bit_witness :
  let res := imx8mm_tmu_probe (platform_ok false 0) (machine_const 5) in
  preamble_ok (platform_ok false 0) = true /\
  exists evs,
    trace (final res) = evs ++ [EvWritel (Z.lor 5 TER_EN) 0x1000; EvReadl 0x1000].
Proof.
  cbv zeta. split; [reflexivity|].
  destruct (probe_sets_enable_bit (platform_ok false 0) (machine_const 5)
              eq_refl) as [(evs & Htrace & _) _].
  exists evs. exact Htrace.
Defined.

(** X16.  When hwmon registration fails after the monitor has been
    enabled, the probe function returns that error having only unmapped
    the window: the last register write remains the one that set the
    enable bit, and the cooling device is neither unbound nor
    unregistered on this path. *)
Theorem probe_hwmon_failure_path pdev m :
  reaches_hwmon pdev = true ->
  thermal_add_hwmon_sysfs pdev <> 0 ->
  let ter := of_iomap_tmu pdev + TER in
  let res := imx8mm_tmu_probe pdev m in
  res = ((thermal_add_hwmon_sysfs pdev, DrvStale),
         record (EvIounmap (of_iomap_tmu pdev)) (machine_after_enable pdev m)) /\
  hd_error (filter is_writel (trace (final res)))
    = Some (EvWritel (Z.lor (Int.u32 (bus m (trace m) ter)) TER_EN) ter) /\
  count is_cooling_release (trace (final res))
    = count is_cooling_release (trace m).
Proof.
  unfold reaches_hwmon, window_mapped. intros H Hh. cbv zeta.
  repeat (apply andb_prop in H; destruct H as [H ?]).
  assert (E : imx8mm_tmu_probe pdev m =
    ((thermal_add_hwmon_sysfs pdev, DrvStale),
     record (EvIounmap (of_iomap_tmu pdev)) (machine_after_enable pdev m))).
  { unfold imx8mm_tmu_probe. rewrite H.
    match goal with E : devm_kzalloc _ = _ |- _ => rewrite E end.
    cbn [negb tmu_zeroed tmu_base].
    match goal with E : negb _ = true |- _ =>
      apply negb_true_iff in E; rewrite E end.
    destruct (devm_clk_get pdev) as [c|]; [|discriminate].
    destruct (devm_thermal_zone_of_sensor_register pdev) as [tz|];
      [|discriminate].
    destruct (devfreq_cooling_register pdev) as [cd|]; [|discriminate].
    repeat match goal with E : (_ =? 0) = true |- _ => rewrite E; clear E end.
    apply Z.eqb_neq in Hh. rewrite Hh. reflexivity. }
  rewrite E. unfold final, machine_after_enable.
  cbn [snd record trace filter is_writel].
  rewrite !count_cons. cbn [is_cooling_release].
  repeat split.
Qed.

Lemma probe_hwmon_failure_path_witness :
  let pdev := platform_with (Ptr 0x2000) (- ENOMEM) in
  reaches_hwmon pdev = true /\
  thermal_add_hwmon_sysfs pdev <> 0 /\
  fst (imx8mm_tmu_probe pdev (machine_const 0)) = (- ENOMEM, DrvStale).
Proof.
  cbv zeta.
  assert (Hh : thermal_add_hwmon_sysfs (platform_with (Ptr 0x2000) (- ENOMEM))
               <> 0) by discriminate.
  split; [reflexivity | split; [exact Hh|]].
  destruct (probe_hwmon_failure_path (platform_with (Ptr 0x2000) (- ENOMEM))
              (machine_const 0) eq_refl Hh) as [E _].
  rewrite E. reflexivity.
Defined.

(** X17.  When the cooling device cannot be registered the probe function
    returns the error it was given after unmapping the window; it logs an
    error message unless the error is [-EPROBE_DEFER], which it passes on
    silently. *)
Theorem probe_cooling_failure_logging pdev m e :
  reaches_cooling pdev = true ->
  devfreq_cooling_register pdev = ErrPtr e ->
  let res := imx8mm_tmu_probe pdev m in
  fst res = (e, DrvStale) /\
  trace (final res) =
    (if e =? - EPROBE_DEFER
     then [EvIounmap (of_iomap_tmu pdev)]
     else [EvIounmap (of_iomap_tmu pdev);
           EvLog KERN_ERR "failed to register devfreq cooling device %d" [e]])
    ++ trace m.
Proof.
  unfold reaches_cooling, window_mapped. intros H Hcd. cbv zeta.
  repeat (apply andb_prop in H; destruct H as [H ?]).
  unfold imx8mm_tmu_probe. rewrite H.
  match goal with E : devm_kzalloc _ = _ |- _ => rewrite E end.
  cbn [negb tmu_zeroed tmu_base].
  match goal with E : negb _ = true |- _ =>
    apply negb_true_iff in E; rewrite E end.
  destruct (devm_clk_get pdev) as [c|]; [|discriminate].
  destruct (devm_thermal_zone_of_sensor_register pdev) as [tz|];
    [|discriminate].
  rewrite Hcd.
  destruct (e =? - EPROBE_DEFER); split; reflexivity.
Qed.

Lemma probe_cooling_failure_logging_witness :
  let pdev := platform_with (ErrPtr (- EPROBE_DEFER)) 0 in
  reaches_cooling pdev = true /\
  trace (final (imx8mm_tmu_probe pdev (machine_const 0))) = [EvIounmap 0x1000].
Proof.
  cbv zeta. split; [reflexivity|].
  destruct (probe_cooling_failure_logging
              (platform_with (ErrPtr (- EPROBE_DEFER)) 0) (machine_const 0)
              (- EPROBE_DEFER) eq_refl eq_refl) as [_ Htrace].
  exact Htrace.
Defined.

(* ===================================================================== *)
(** ** Removal *)

(** What [imx8mm_tmu_remove] does, step by step. *)
Lemma remove_steps cdu tmu m :
  let ter := tmu_base tmu + TER in
  let h := EvCoolingUnregister :: EvUnbindCooling IMX_TRIP_PASSIVE
             :: trace m in
  let r := Int.u32 (bus m h ter) in
  let w := Int.u32 (Z.land r (Z.lnot TER_EN)) in
  let m1 := {| bus := bus m; trace := EvWritel w ter :: EvReadl ter :: h |} in
  imx8mm_tmu_remove cdu tmu m =
    (0, record (EvIounmap (tmu_base tmu)) (snd (cdu (clk tmu) m1))).
Proof.
  cbv zeta. unfold imx8mm_tmu_remove, writel_relaxed, iounmap, bind,
    readl_relaxed, emit, ret, record.
  cbn [trace bus].
  match goal with |- context [cdu ?c ?x] => destruct (cdu c x) as [u m2] end.
  reflexivity.
Qed.

(** X18.  [imx8mm_tmu_remove] returns 0 and disables the monitor by one
    read-modify-write of [TER], made after the cooling device has been
    unbound and unregistered and before the clock is released and the
    window unmapped: the word written is the word read with bit 31
    cleared and every other bit unchanged. *)
Theorem remove_clears_enable_bit cdu tmu m :
  let ter := tmu_base tmu + TER in
  let h := EvCoolingUnregister :: EvUnbindCooling IMX_TRIP_PASSIVE
             :: trace m in
  let r := Int.u32 (bus m h ter) in
  let w := Z.land r (Z.lnot TER_EN) in
  let m1 := {| bus := bus m; trace := EvWritel w ter :: EvReadl ter :: h |} in
  imx8mm_tmu_remove cdu tmu m =
    (0, record (EvIounmap (tmu_base tmu)) (snd (cdu (clk tmu) m1))) /\
  Z.testbit w 31 = false /\
  (forall i, i <> 31 -> Z.testbit w i = Z.testbit r i) /\
  0 <= w < 2 ^ 31.
Proof.
  cbv zeta. rewrite remove_steps. cbv zeta.
  set (r := Int.u32 (bus m _ _)).
  destruct (clear_enable_bit_spec r (u32_range_pow _)) as (E & Hbit & Hoth & Hr).
  rewrite E in *. repeat split; assumption || apply Hr.
Qed.

(** The instance a probe leaves holds the window the platform mapped. *)
Lemma probe_output_window pdev m tmu :
  output (imx8mm_tmu_probe pdev m) = DrvInstance tmu ->
  tmu_base tmu = of_iomap_tmu pdev.
Proof.
  intros Hout.
  destruct (probe_instance_fields pdev m tmu Hout)
    as (_ & _ & c & tz & cd & v & _ & _ & _ & _ & Etmu).
  subst tmu. reflexivity.
Qed.

(** X19.  Enabling and disabling undo each other.  If [TER] had bit 31
    clear when the probe function read it, and holds the word the probe
    function wrote when [imx8mm_tmu_remove] reads it, then the removal
    writes back the word the probe function had read, to the same
    address, and unmaps the window the probe function had mapped. *)
Theorem probe_then_remove_restores_ter cdu pdev m tmu :
  output (imx8mm_tmu_probe pdev m) = DrvInstance tmu ->
  let ter := of_iomap_tmu pdev + TER in
  let r := Int.u32 (bus m (trace m) ter) in
  let m1 := final (imx8mm_tmu_probe pdev m) in
  let h := EvCoolingUnregister :: EvUnbindCooling IMX_TRIP_PASSIVE
             :: trace m1 in
  Z.testbit r 31 = false ->
  bus m1 h ter = Z.lor r TER_EN ->
  imx8mm_tmu_remove cdu tmu m1 =
    (0, record (EvIounmap (of_iomap_tmu pdev))
          (snd (cdu (clk tmu)
                  {| bus := bus m1;
                     trace := EvWritel r ter :: EvReadl ter :: h |}))).
Proof.
  intros Hout. cbv zeta. intros Hbit Hmem.
  pose proof (probe_output_window pdev m tmu Hout) as Hbase.
  rewrite remove_steps. cbv zeta. rewrite Hbase, Hmem.
  set (r := Int.u32 (bus m (trace m) (of_iomap_tmu pdev + TER))) in *.
  pose proof (u32_range_pow (bus m (trace m) (of_iomap_tmu pdev + TER))) as Hr.
  fold r in Hr.
  destruct (set_enable_bit r Hr) as (_ & _ & Hw).
  rewrite (IntFacts.u32_small (Z.lor r TER_EN))
    by (rewrite IntFacts.modulus_eq; exact Hw).
  rewrite (set_then_clear_enable_bit r Hr Hbit).
  rewrite (IntFacts.u32_small r) by (rewrite IntFacts.modulus_eq; exact Hr).
  reflexivity.
Qed.

Lemma probe_then_remove_restores_ter_witness :
  let res := imx8mm_tmu_probe (platform_ok false 0) (machine_mem 5) in
  exists tmu,
    output res = DrvInstance tmu /\
    hd_error (filter is_writel (trace (final
                (imx8mm_tmu_remove clk_quiet tmu (final res)))))
      = Some (EvWritel 5 0x1000).
Proof.
  cbv zeta. eexists. split; [reflexivity|].
  match goal with |- context [imx8mm_tmu_remove _ ?t _] =>
    rewrite (probe_then_remove_restores_ter clk_quiet (platform_ok false 0)
               (machine_mem 5) t eq_refl eq_refl eq_refl) end.
  reflexivity.
Defined.

(* ===================================================================== *)
(** ** Using the instance a probe leaves *)


Lemma probe_output_offset_range pdev m tmu :
  output (imx8mm_tmu_probe pdev m) = DrvInstance tmu ->
  do_calib tmu = true -> 1 <= fuse_calib_val tmu <= 255.
Proof.
  intros Hout.
  destruct (probe_instance_fields pdev m tmu Hout) as (Hp & Hfst & _).
  exact (probe_calibrated_offset_range pdev m tmu Hfst Hp).
Qed.



(** X21.  On the instance a successful probe leaves, every temperature
    that [tmu_get_temp] reports with status 0, on any machine, is a whole
    number of degrees between -230 and 279 times 1000; so the conversion
    of the [u32] product to [int] never loses anything. *)
Theorem probe_then_get_temp_range pdev m tmu temp m' :
  output (imx8mm_tmu_probe pdev m) = DrvInstance tmu ->
  status (tmu_get_temp tmu temp m') = 0 ->
  exists d,
    output (tmu_get_temp tmu temp m') = d * 1000 /\ -230 <= d <= 279.
Proof.
  intros Hout.
  pose proof (probe_output_offset_range pdev m tmu Hout) as Hreach.
  assert (Hacc : forall m0, 10 <= fst (attempt tmu m0) ->
            exists d, Int.s32 (Int.umul (fst (attempt tmu m0)) 1000) = d * 1000
                      /\ -230 <= d <= 279).
  { intros m0 H10.
    destruct (accepted_value_scaled tmu m0 Hreach H10)
      as (d & Hd & Hoff & Hon).
    exists d. split; [exact Hd|].
    destruct (do_calib tmu).
    - destruct (Hon eq_refl) as (r & Hr & Hdr & Hpos & Hneg).
      destruct (Z_le_dec (fuse_calib_val tmu) (r + 25)) as [Hle|Hgt].
      + specialize (Hpos Hle). lia.
      + specialize (Hneg ltac:(lia)). lia.
    - specialize (Hoff eq_refl). lia. }
  rewrite tmu_get_temp_attempts. cbv zeta.
  unfold status, output, TEMP_LOW_LIMIT.
  destruct (fst (attempt tmu m') <? 10) eqn:E1.
  - destruct (fst (attempt tmu (record (EvMsleep 10) (snd (attempt tmu m'))))
              <? 10) eqn:E2; cbn [fst snd].
    + unfold EAGAIN. discriminate.
    + intros _. apply Z.ltb_ge in E2. apply Hacc. exact E2.
  - cbn [fst snd]. intros _. apply Z.ltb_ge in E1. apply Hacc. exact E1.
Qed.

Lemma probe_then_get_temp_range_witness :
  let res := imx8mm_tmu_probe (platform_ok true 0x8000)
               (machine_reg (0x8000 + OCOTP_TMU_CALIB) 20) in
  exists tmu d,
    output res = DrvInstance tmu /\
    output (tmu_get_temp tmu 0 (machine_const 30)) = d * 1000 /\
    -230 <= d <= 279.
Proof.
  cbv zeta. eexists.
  match goal with |- exists d, output _ = DrvInstance ?t /\ _ =>
    destruct (probe_then_get_temp_range (platform_ok true 0x8000)
                (machine_reg (0x8000 + OCOTP_TMU_CALIB) 20) t 0
                (machine_const 30) eq_refl eq_refl) as (d & Hd & Hr) end.
  exists d. split; [reflexivity | split; [exact Hd | exact Hr]].
Defined.
